(** * MasterController: request validation, dispatch and response shaping

    A shallow embedding of [server/src/app/utils/MasterController.js].

    JavaScript objects are finite maps from property names to values, the
    calls the handler makes on its surroundings (the subclass overrides, the
    schema library, the Express response object) are recorded in a trace, and
    a thrown exception short-cuts the rest of an async function body. *)

From stdpp Require Import gmap strings list fin_maps pretty.

Set Default Proof Using "Type".
Set Warnings "-register-all".

(** ** JavaScript values *)

Module JS.

(** The values that travel through the controller.  [VObj] carries the own
    enumerable properties of a plain object. *)
Inductive Value : Type :=
  | VUndefined
  | VNull
  | VBool (b : bool)
  | VNum (n : Z)
  | VStr (s : string)
  | VArr (elems : list Value)
  | VObj (props : gmap string Value).

Abbreviation Obj := (gmap string Value).

(** What a rejected promise or a [throw] carries. *)
Inductive Exn : Type :=
  | TypeError (msg : string)
  | Thrown (v : Value).

(** Index keys of an array or of a string: ["0"], ["1"], ... *)
Definition indexed (vs : list Value) : Obj :=
  list_to_map (imap (fun i v => (pretty i, v)) vs).

Fixpoint chars (s : string) : list Value :=
  match s with
  | EmptyString => []
  | String c rest => VStr (String c EmptyString) :: chars rest
  end.

(** Own enumerable properties, as object spread [{...v}] copies them:
    nothing for undefined, null, booleans and numbers, the characters of a
    string, the elements of an array, the properties of an object. *)
Definition own_enumerable (v : Value) : Obj :=
  match v with
  | VUndefined | VNull | VBool _ | VNum _ => ∅
  | VStr s => indexed (chars s)
  | VArr vs => indexed vs
  | VObj props => props
  end.

(** One [...src] inside an object literal whose properties so far are
    [target]: the properties of [src] are written over those of [target]. *)
Definition spread (target : Obj) (src : Value) : Obj :=
  own_enumerable src ∪ target.

(** [v.k] for the two property names the handler reads ([response] and
    [status]): a TypeError on undefined and null, the own property of an
    object, and undefined otherwise (no primitive wrapper or array carries a
    property of either name). *)
Definition get_prop (v : Value) (k : string) : Exn + Value :=
  match v with
  | VUndefined | VNull =>
      inl (TypeError ("Cannot read properties of undefined or null, reading " +:+ k))
  | VObj props => inr (default VUndefined (props !! k))
  | _ => inr VUndefined
  end.

End JS.
Import JS.

(** ** The schema library, as joiValidator uses it *)

Module Joi.

(** The options object passed as second argument of [schema.validate]. *)
Record ValidateOptions : Type := {
  abortEarly : bool;
  allowUnknown : bool;
}.

(** One entry of [error.details]; only [message] is read. *)
Record ValidationErrorItem : Type := { message : string }.

(** The [error] of a validation result; only [details] is read. *)
Record ValidationError : Type := { details : list ValidationErrorItem }.

(** [schema.validate(value, options)] returns an object of which [error] is
    destructured: [None] stands for an undefined [error]. *)
Record ValidationResult : Type := { error : option ValidationError }.

(** A schema is an object with a [validate] method. *)
Record Schema : Type := {
  validate : Value → ValidateOptions → ValidationResult;
}.

End Joi.

(** ** RequestBuilder *)

Module RequestBuilder.

(** The three members of [PayloadType] that joiValidator compares against;
    [OTHER] stands for any value of [payload.type] that equals none of them
    and so falls through the if / else-if chain. *)
Inductive PayloadType : Type := PARAMS | QUERY | BODY | OTHER.

#[global] Instance PayloadType_eq_dec : EqDecision PayloadType.
Proof. solve_decision. Defined.

(** An element of [validationRules.payload]. *)
Record Payload : Type := {
  type : PayloadType;
  schema : Joi.Schema;
}.

Record t : Type := {
  payload : list Payload;
}.

(** Modelled from the spec: RequestBuilder.js is not among the sources.  The
    property [get], of which joiValidator only reads the length, is described
    as the validation rule list: it is the accessor of the [payload] array. *)
Definition get (validationRules : t) : list Payload :=
  payload validationRules.

End RequestBuilder.
Import RequestBuilder(PayloadType, PARAMS, QUERY, BODY, OTHER, Payload).

(** ** Express: requests, the response object, routers *)

(** [req.params], [req.query], [req.body] and [req.headers] are what the
    property reads yield, whether the property is the request's own or an
    accessor it inherits; [own] are the own enumerable properties of the
    request object, which is what [...req] copies. *)
Record Request : Type := {
  params : Value;
  query : Value;
  body : Value;
  headers : Value;
  own : Obj;
}.

(** A controller class: [MasterController] itself or a class that extends it,
    with the two members a subclass overrides.  [restController] is async:
    its promise is fulfilled with a value ([inr]) or rejected ([inl]). *)
Record ControllerClass : Type := {
  validate : unit → RequestBuilder.t;
  restController : Value → Value → Value → Value → Obj → Exn + Value;
}.

(** The result of [new self()]: an object whose prototype is the class's. *)
Record Controller : Type := { class_of : ControllerClass }.

(** The calls that leave the handler, in the order they are made. *)
Inductive Event : Type :=
  | EvNew (self : ControllerClass)
  | EvValidate (self : ControllerClass)
  | EvSchemaValidate (schema : Joi.Schema) (value : Value)
      (options : Joi.ValidateOptions)
  | EvRestController (controller : Controller)
      (params query body headers : Value) (allData : Obj)
  | EvStatus (code : Value)
  | EvJson (body : Value)
  | EvNext (err : Exn).

(** A computation logs the calls it makes and either completes with a value
    or throws. *)
Definition M (A : Type) : Type := (list Event * (Exn + A))%type.

Definition ret {A} (a : A) : M A := ([], inr a).

Definition bind {A B} (m : M A) (k : A → M B) : M B :=
  match m with
  | (tr, inl e) => (tr, inl e)
  | (tr, inr a) => let '(tr', r) := k a in (tr ++ tr', r)
  end.

Notation "'let*' x := m 'in' k" := (bind m (fun x => k))
  (at level 10, x name, m at level 100, k at level 200).
Notation "m ;; k" := (bind m (fun _ => k))
  (at level 100, k at level 200, right associativity).

Definition emit (e : Event) : M unit := ([e], inr tt).

(** [await] of a settled promise, and a property read that may throw. *)
Definition settle {A} (r : Exn + A) : M A := ([], r).

Definition trace {A} (m : M A) : list Event := fst m.
Definition outcome {A} (m : M A) : Exn + A := snd m.

(** [arr.forEach(f)] where [f] updates the state [s] it closes over. *)
Fixpoint forEach {A S} (f : S → A → M S) (arr : list A) (s : S) : M S :=
  match arr with
  | [] => ret s
  | x :: rest => let* s' := f s x in forEach f rest s'
  end.

(** An Express request handler, by the calls it makes for a request. *)
Definition RequestHandler : Type := Request → list Event.

(** Modelled from the spec: AsyncHandler.js is not among the sources.  It
    receives what the wrapped async function throws: the wrapper runs the
    function once on the request and hands a rejection to [next]. *)
Definition asyncHandler (fn : Request → M unit) : RequestHandler :=
  fun req =>
    match fn req with
    | (tr, inl e) => tr ++ [EvNext e]
    | (tr, inr _) => tr
    end.

Inductive Method : Type := GET | POST.

(** A middleware is opaque to the controller: it is only passed on. *)
Inductive Middleware : Type := MkMiddleware (label : string).

(** One registration on an Express router. *)
Record Route : Type := {
  route_method : Method;
  route_path : string;
  route_middlewares : list Middleware;
  route_handler : RequestHandler;
}.

(** A router, by the routes registered on it, oldest first. *)
Definition Router : Type := list Route.

(** [router.get(path, middlewares, handler)] and [router.post(...)]: each
    registers the route and returns the router. *)
Definition router_get (router : Router) (path : string)
    (middlewares : list Middleware) (h : RequestHandler) : Router :=
  router ++ [{| route_method := GET; route_path := path;
                route_middlewares := middlewares; route_handler := h |}].

Definition router_post (router : Router) (path : string)
    (middlewares : list Middleware) (h : RequestHandler) : Router :=
  router ++ [{| route_method := POST; route_path := path;
                route_middlewares := middlewares; route_handler := h |}].

(** ** MasterController *)

Module MasterController.

(** The object [joiErrors]: property name to array of messages. *)
Abbreviation JoiErrors := (gmap string (list string)).

(** The options literal of all three [schema.validate] calls. *)
Definition joiOptions : Joi.ValidateOptions :=
  {| Joi.abortEarly := false; Joi.allowUnknown := true |}.

(** [schema.validate(value, {abortEarly: false, allowUnknown: true})]. *)
Definition schema_validate (schema : Joi.Schema) (value : Value)
    (options : Joi.ValidateOptions) : M Joi.ValidationResult :=
  emit (EvSchemaValidate schema value options) ;;
  ret (Joi.validate schema value options).

(** [if (error) joiErrors.key?.push(...error.details.map(err => err.message))]:
    with [?.] nothing is pushed when the property is absent. *)
Definition push_messages (key : string) (error : option Joi.ValidationError)
    (joiErrors : JoiErrors) : JoiErrors :=
  match error with
  | Some err =>
      alter (fun arr => arr ++ map Joi.message (Joi.details err)) key joiErrors
  | None => joiErrors
  end.

(** The callback of [validationRules.payload.forEach]. *)
Definition validate_payload (params query body : Value)
    (joiErrors : JoiErrors) (payload : Payload) : M JoiErrors :=
  match RequestBuilder.type payload with
  | PARAMS =>
      let* r := schema_validate (RequestBuilder.schema payload) params joiOptions in
      ret (push_messages "param" (Joi.error r) joiErrors)
  | QUERY =>
      let* r := schema_validate (RequestBuilder.schema payload) query joiOptions in
      ret (push_messages "query" (Joi.error r) joiErrors)
  | BODY =>
      let* r := schema_validate (RequestBuilder.schema payload) body joiOptions in
      ret (push_messages "body" (Joi.error r) joiErrors)
  | OTHER => ret joiErrors
  end.

(** [if (joiErrors.key?.length === 0) delete joiErrors.key]. *)
Definition delete_if_empty (key : string) (joiErrors : JoiErrors) : JoiErrors :=
  if decide (length <$> joiErrors !! key = Some 0)
  then delete key joiErrors
  else joiErrors.

(** [static joiValidator(params, query, body, validationRules)]; [None] is
    the [null] it returns. *)
Definition joiValidator (params query body : Value)
    (validationRules : RequestBuilder.t) : M (option JoiErrors) :=
  if decide (length (RequestBuilder.get validationRules) = 0) then ret None
  else
    let joiErrors : JoiErrors :=
      <["body" := []]> (<["param" := []]> (<["query" := []]> ∅)) in
    let* joiErrors := forEach (validate_payload params query body)
                   (RequestBuilder.payload validationRules) joiErrors in
    let joiErrors := delete_if_empty "query" joiErrors in
    let joiErrors := delete_if_empty "param" joiErrors in
    let joiErrors := delete_if_empty "body" joiErrors in
    if decide (size joiErrors = 0) then ret None
    else ret (Some joiErrors).

(** [joiErrors] as the JSON value it is inside the 400 body: an object of
    arrays of strings. *)
Definition errors_value (joiErrors : JoiErrors) : Value :=
  VObj ((fun msgs => VArr (VStr <$> msgs)) <$> joiErrors).

(** The body of the 400 response. *)
Definition validation_error_body (joiErrors : JoiErrors) : Value :=
  VObj (<["errors" := errors_value joiErrors]>
       (<["data" := VNull]>
       (<["message" := VStr "Validation Error"]>
       (<["status" := VNum 400]> ∅)))).

(** [{ ...req.params, ...req.query, ...req.body, ...req.headers, ...req }]. *)
Definition allData (req : Request) : Obj :=
  spread (spread (spread (spread (spread ∅ (params req)) (query req))
    (body req)) (headers req)) (VObj (own req)).

(** The async function that [handler] wraps; [self] is the class the static
    method is called on, which is also the arrow function's [this]. *)
Definition handler_body (self : ControllerClass) (req : Request) : M unit :=
  let* controller := (emit (EvNew self) ;; ret {| class_of := self |}) in
  let allData := allData req in
  let* validationRules := (emit (EvValidate self) ;; ret (validate self ())) in
  let* joiErrors := joiValidator (params req) (query req) (body req)
                 validationRules in
  match joiErrors with
  | Some joiErrors =>
      emit (EvStatus (VNum 400)) ;;
      emit (EvJson (validation_error_body joiErrors))
  | None =>
      let* result := (emit (EvRestController controller (params req) (query req)
                         (body req) (headers req) allData) ;;
                 settle (restController (class_of controller) (params req)
                           (query req) (body req) (headers req) allData)) in
      let* response := settle (get_prop result "response") in
      let* status := settle (get_prop response "status") in
      emit (EvStatus status) ;;
      emit (EvJson response)
  end.

(** [static handler()]. *)
Definition handler (self : ControllerClass) : RequestHandler :=
  asyncHandler (handler_body self).

(** [static get(router, path, middlewares)]. *)
Definition get (self : ControllerClass) (router : Router) (path : string)
    (middlewares : list Middleware) : Router :=
  router_get router path middlewares (handler self).

(** [static post(router, path, middlewares)]. *)
Definition post (self : ControllerClass) (router : Router) (path : string)
    (middlewares : list Middleware) : Router :=
  router_post router path middlewares (handler self).

End MasterController.

(** ** The notions of the specification *)

Module Spec.
Import MasterController.

(** The request section a rule of a given type is about, if any. *)
Definition section_of (ty : PayloadType) (params query body : Value)
    : option Value :=
  match ty with
  | PARAMS => Some params
  | QUERY => Some query
  | BODY => Some body
  | OTHER => None
  end.

(** The property of the error object under which a section is reported. *)
Definition key_of (ty : PayloadType) : option string :=
  match ty with
  | PARAMS => Some "param"
  | QUERY => Some "query"
  | BODY => Some "body"
  | OTHER => None
  end.

(** The messages the schema library produced in one validation. *)
Definition messages_of (r : Joi.ValidationResult) : list string :=
  match Joi.error r with
  | Some err => map Joi.message (Joi.details err)
  | None => []
  end.

(** The rules of one type, in rule order. *)
Definition rules_of (ty : PayloadType) (rules : list Payload) : list Payload :=
  filter (fun r => RequestBuilder.type r = ty) rules.

(** The messages the library produced for a section's rules, concatenated in
    rule order. *)
Definition library_messages (ty : PayloadType) (section : Value)
    (rules : list Payload) : list string :=
  flat_map
    (fun r => messages_of (Joi.validate (RequestBuilder.schema r) section joiOptions))
    (rules_of ty rules).

(** The messages an outcome of joiValidator reports under a key: those of the
    array under that key, none when the key is absent or the result null. *)
Definition reported (res : option JoiErrors) (key : string) : list string :=
  match res with
  | Some joiErrors => default [] (joiErrors !! key)
  | None => []
  end.

(** The library call joiValidator is to make for one rule. *)
Definition rule_call (params query body : Value) (r : Payload) : list Event :=
  match section_of (RequestBuilder.type r) params query body with
  | Some section =>
      [EvSchemaValidate (RequestBuilder.schema r) section joiOptions]
  | None => []
  end.

(** A validation of the rule list produced an error. *)
Definition produced_error (params query body : Value) (r : Payload) : Prop :=
  ∃ section,
    section_of (RequestBuilder.type r) params query body = Some section ∧
    Joi.error (Joi.validate (RequestBuilder.schema r) section joiOptions) ≠ None.

(** The contract of the library that an error lists at least one detail. *)
Definition errors_have_details (s : Joi.Schema) : Prop :=
  ∀ v o err, Joi.error (Joi.validate s v o) = Some err → Joi.details err ≠ [].



(** An event is a call of some controller's restController. *)
Definition is_restController (e : Event) : bool :=
  match e with
  | EvRestController _ _ _ _ _ _ => true
  | _ => false
  end.

(** An event is a call on the response object. *)
Definition is_response (e : Event) : bool :=
  match e with
  | EvStatus _ | EvJson _ => true
  | _ => false
  end.

(** The responses in a trace, in the order they are sent. *)
Definition responses (tr : list Event) : list Event :=
  List.filter is_response tr.

(** The calls of restController in a trace. *)
Definition restController_calls (tr : list Event) : list Event :=
  List.filter is_restController tr.

(** The class a call in the trace is made on, for the calls that go to a
    controller class or to one of its instances. *)
Definition callee (e : Event) : option ControllerClass :=
  match e with
  | EvNew self | EvValidate self => Some self
  | EvRestController controller _ _ _ _ _ => Some (class_of controller)
  | _ => None
  end.

(** The call of restController the handler makes for a request. *)
Definition restController_call (self : ControllerClass) (req : Request)
    : Event :=
  EvRestController {| class_of := self |} (params req) (query req) (body req)
    (headers req) (allData req).

(** What follows the call of restController: nothing is sent and the handler
    body rejects when restController rejects or its value has no response
    object to read; otherwise the response's status and the response. *)
Definition after_restController (settled : Exn + Value) : M unit :=
  match settled with
  | inl e => ([], inl e)
  | inr result =>
      match get_prop result "response" with
      | inl e => ([], inl e)
      | inr response =>
          match get_prop response "status" with
          | inl e => ([], inl e)
          | inr status => ([EvStatus status; EvJson response], inr tt)
          end
      end
  end.

(** What one round of the loop of joiValidator does to [joiErrors]. *)
Definition round (params query body : Value) (joiErrors : JoiErrors)
    (r : Payload) : JoiErrors :=
  match key_of (RequestBuilder.type r),
        section_of (RequestBuilder.type r) params query body with
  | Some key, Some section =>
      push_messages key
        (Joi.error (Joi.validate (RequestBuilder.schema r) section joiOptions))
        joiErrors
  | _, _ => joiErrors
  end.

(** The messages one round appends under the key of [ty]. *)
Definition round_messages (params query body : Value) (ty : PayloadType)
    (r : Payload) : list string :=
  match section_of ty params query body with
  | Some section =>
      if decide (RequestBuilder.type r = ty)
      then messages_of
             (Joi.validate (RequestBuilder.schema r) section joiOptions)
      else []
  | None => []
  end.

(** The entry of the error object for one section: none when the library
    produced no message for it. *)
Definition section_entry (key : string) (msgs : list string) : JoiErrors :=
  match msgs with
  | [] => ∅
  | _ => {[ key := msgs ]}
  end.

(** The error object of the specification: for each of the three sections
    that has messages, the messages of the library for that section's rules. *)
Definition library_errors (params query body : Value) (rules : list Payload)
    : JoiErrors :=
  section_entry "query" (library_messages QUERY query rules) ∪
  (section_entry "param" (library_messages PARAMS params rules) ∪
   section_entry "body" (library_messages BODY body rules)).

(** joiValidator as the specification words it: null when the library found
    nothing, the library's messages by section otherwise. *)
Definition joiValidator_spec (params query body : Value)
    (validationRules : RequestBuilder.t) : option JoiErrors :=
  let errs :=
    library_errors params query body (RequestBuilder.payload validationRules) in
  if decide (errs = ∅) then None else Some errs.

End Spec.
Import MasterController Spec.

(** ** A sample schema, controllers and requests *)

Module Example.

Definition item (msg : string) : Joi.ValidationErrorItem :=
  {| Joi.message := msg |}.

(** The required keys an object lacks, one violation each. *)
Definition missing (required : list string) (props : Obj)
    : list Joi.ValidationErrorItem :=
  (fun k => item (k +:+ " is required"))
    <$> filter (fun k => props !! k = None) required.

(** The keys of an object that are not among those the schema mentions. *)
Definition unknown (required : list string) (props : Obj)
    : list Joi.ValidationErrorItem :=
  (fun k => item (k +:+ " is not allowed"))
    <$> filter (fun k => k ∉ required) (elements (dom props)).


(** An object schema with required keys, in the manner of
    [Joi.object().keys({k: Joi.any().required(), ...})]: a missing key is a
    violation, an unknown key is one unless [allowUnknown], and with
    [abortEarly] only the first violation is listed. *)
Definition object_keys (required : list string) : Joi.Schema :=
  {| Joi.validate v o :=
       let all :=
         match v with
         | VObj props =>
             missing required props ++
             (if Joi.allowUnknown o then [] else unknown required props)
         | _ => [item "value must be of type object"]
         end in
       let shown := if Joi.abortEarly o then take 1 all else all in
       {| Joi.error :=
            match shown with
            | [] => None
            | _ => Some {| Joi.details := shown |}
            end |} |}.

Definition user_rules : RequestBuilder.t :=
  {| RequestBuilder.payload :=
       [ {| RequestBuilder.type := PARAMS;
            RequestBuilder.schema := object_keys ["id"] |};
         {| RequestBuilder.type := BODY;
            RequestBuilder.schema := object_keys ["email"; "password"] |} ] |}.



Definition success_response : Value :=
  VObj (<["status" := VNum 200]> (<["message" := VStr "Success"]>
       (<["data" := VNull]> ∅))).

(** A subclass that overrides [validate] and [restController]. *)
Definition UserController : ControllerClass :=
  {| validate _ := user_rules;
     restController _ _ _ _ _ := inr (VObj {[ "response" := success_response ]}) |}.

(** A subclass whose [restController] throws. *)
Definition FailingController : ControllerClass :=
  {| validate _ := user_rules;
     restController _ _ _ _ _ := inl (Thrown (VStr "database unavailable")) |}.

Definition good_request : Request :=
  {| params := VObj {[ "id" := VNum 7 ]};
     query := VObj ∅;
     body := VObj (<["email" := VStr "a@b.c"]> {[ "password" := VStr "hunter22" ]});
     headers := VObj {[ "host" := VStr "localhost" ]};
     own := <["url" := VStr "/user/7"]> {[ "id" := VStr "from-middleware" ]} |}.

Definition bad_request : Request :=
  {| params := VObj {[ "id" := VNum 7 ]};
     query := VObj ∅;
     body := VObj {[ "nickname" := VStr "zed" ]};
     headers := VObj {[ "host" := VStr "localhost" ]};
     own := {[ "url" := VStr "/user/7" ]} |}.

(** The error object joiValidator builds for [bad_request]. *)
Definition bad_errors : MasterController.JoiErrors :=
  {[ "body" := ["email is required"; "password is required"] ]}.

End Example.

(** ** Further notions: rule lists, response extraction *)

(** A rule whose type is one of the three joiValidator compares against. *)
Definition recognized (r : Payload) : Prop :=
  RequestBuilder.type r ≠ OTHER.

(** The rule list without the rules of unrecognized type. *)
Definition recognized_rules (validationRules : RequestBuilder.t)
    : RequestBuilder.t :=
  {| RequestBuilder.payload :=
       filter recognized (RequestBuilder.payload validationRules) |}.

(** A validation of the rule list produced an error that lists at least one
    detail, and so a message. *)
Definition produced_message (params query body : Value) (r : Payload) : Prop :=
  ∃ section,
    section_of (RequestBuilder.type r) params query body = Some section ∧
    messages_of
      (Joi.validate (RequestBuilder.schema r) section joiOptions) ≠ [].

(** [undefined] and [null], on which a property read throws. *)
Definition nullish (v : Value) : Prop := v = VUndefined ∨ v = VNull.

(** The value a schema validation in the trace is called on. *)
Definition validated_value (e : Event) : option Value :=
  match e with
  | EvSchemaValidate _ value _ => Some value
  | _ => None
  end.

(** ** Controllers that misuse the response shape *)

Module Scenario.

(** A subclass whose [restController] resolves to the response object itself
    instead of an object that holds it under [response]. *)
Definition BareController : ControllerClass :=
  {| validate _ := Example.user_rules;
     restController _ _ _ _ _ := inr Example.success_response |}.

(** A subclass whose response object has no [status]. *)
Definition message_only : Value :=
  VObj {[ "message" := VStr "created" ]}.

Definition StatuslessController : ControllerClass :=
  {| validate _ := Example.user_rules;
     restController _ _ _ _ _ := inr (VObj {[ "response" := message_only ]}) |}.

(** A subclass that declares no validation rule. *)
Definition OpenController : ControllerClass :=
  {| validate _ := {| RequestBuilder.payload := [] |};
     restController _ _ _ _ _ :=
       inr (VObj {[ "response" := Example.success_response ]}) |}.






(** A schema whose error lists no detail. *)
Definition silent_error : Joi.Schema :=
  {| Joi.validate _ _ :=
       {| Joi.error := Some {| Joi.details := [] |} |} |}.

Definition silent_rules : RequestBuilder.t :=
  {| RequestBuilder.payload :=
       [ {| RequestBuilder.type := BODY;
            RequestBuilder.schema := silent_error |} ] |}.

End Scenario.

(** ** server.js: start-up *)

Module Server.

(** What start-up fails with: the Error it constructs itself, or what a
    rejected promise carried. *)
Inductive Failure : Type :=
  | Error (message : string)
  | Rejection (e : Exn).

Section Startup.

(** The Express application [serverConfig()] resolves to. *)
Variable App : Type.

(** The calls start-up makes, in order.  [Listen] carries the port and the
    line its callback logs once the server listens. *)
Inductive Event : Type :=
  | ServerConfig
  | MongooseConnect
  | ConsoleError (label : string) (err : Exn)
  | CreateServer (app : App)
  | Listen (port : Value) (onListening : string).

(** [process.env], after dotenv has loaded the .env file: every value is a
    string. *)
Definition Env : Type := gmap string string.

(** Truthiness of [process.env.NAME]: set, and not the empty string. *)
Definition env_truthy (env : Env) (name : string) : bool :=
  match env !! name with
  | Some value => negb (String.eqb value "")
  | None => false
  end.

(** [const port = process.env.PORT || 3000]. *)
Definition port (env : Env) : Value :=
  match env !! "PORT" with
  | Some value => if String.eqb value "" then VNum 3000 else VStr value
  | None => VNum 3000
  end.

(** The port as the template literal of the listen callback prints it. *)
Definition port_text (p : Value) : string :=
  match p with
  | VStr s => s
  | VNum n => pretty n
  | _ => ""
  end.

(** The async function server.js runs at once.  [serverConfig] and
    [mongooseConnect] are the settled promises of the two calls: fulfilled
    ([inr]) or rejected ([inl]).  [listen] is what [httpServer.listen] does
    when called on a port: it returns, or it throws at once (as Node does
    for a port outside its range). *)
Definition main (env : Env) (serverConfig : Exn + App)
    (mongooseConnect : Exn + unit) (listen : Value → Exn + unit)
    : list Event * (Failure + unit) :=
  match serverConfig with
  | inl e => ([ServerConfig], inl (Rejection e))
  | inr app =>
      if negb (env_truthy env "DB_DIALECT")
      then ([ServerConfig], inl (Error "DB_DIALECT not found in .env file"))
      else
        match mongooseConnect with
        | inl err =>
            ([ServerConfig; MongooseConnect;
              ConsoleError "Unable to connect to the database:" err],
             inl (Rejection err))
        | inr _ =>
            ([ServerConfig; MongooseConnect; CreateServer app;
              Listen (port env)
                ("Server is listening on port " +:+ port_text (port env))],
             match listen (port env) with
             | inl e => inl (Rejection e)
             | inr _ => inr tt
             end)
        end
  end.

(** The server is created or listens somewhere in a trace. *)
Definition serves (e : Event) : bool :=
  match e with
  | CreateServer _ | Listen _ _ => true
  | _ => false
  end.

(** The database is contacted somewhere in a trace. *)
Definition connects (e : Event) : bool :=
  match e with
  | MongooseConnect => true
  | _ => false
  end.

End Startup.

Arguments ServerConfig {App}.
Arguments MongooseConnect {App}.
Arguments ConsoleError {App} label err.
Arguments CreateServer {App} app.
Arguments Listen {App} port onListening.
Arguments serves {App} e.
Arguments connects {App} e.
Arguments main {App} env serverConfig mongooseConnect listen.

End Server.

(** ** The loop of joiValidator *)

Section Loop.
Variables params query body : Value.

Let round := round params query body.
Let round_messages := round_messages params query body.

Lemma validate_payload_round joiErrors r :
  validate_payload params query body joiErrors r =
    (rule_call params query body r, inr (round joiErrors r)).
Proof.
  unfold validate_payload, round, Spec.round, rule_call.
  destruct (RequestBuilder.type r); reflexivity.
Qed.

Lemma forEach_rounds rules joiErrors :
  forEach (validate_payload params query body) rules joiErrors =
    (flat_map (rule_call params query body) rules,
     inr (fold_left round rules joiErrors)).
Proof.
  revert joiErrors.
  induction rules as [|r rules IH]; intros joiErrors; [reflexivity|].
  cbn [forEach fold_left flat_map].
  rewrite validate_payload_round. cbn [bind]. rewrite IH. reflexivity.
Qed.

Lemma push_messages_lookup key error (joiErrors : JoiErrors) k :
  push_messages key error joiErrors !! k =
    if decide (key = k)
    then (fun arr => arr ++ messages_of {| Joi.error := error |})
           <$> joiErrors !! k
    else joiErrors !! k.
Proof.
  unfold push_messages, messages_of. destruct error as [err|]; cbn.
  - rewrite lookup_alter. by case_decide; subst.
  - case_decide; [|reflexivity].
    destruct (joiErrors !! k); cbn; [|reflexivity].
    by rewrite app_nil_r.
Qed.

Lemma round_lookup ty key (joiErrors : JoiErrors) r :
  key_of ty = Some key →
  round joiErrors r !! key =
    (fun arr => arr ++ round_messages ty r) <$> joiErrors !! key.
Proof.
  intros Hkey. unfold round, round_messages, Spec.round, Spec.round_messages.
  destruct (RequestBuilder.type r) eqn:Hty, ty; simplify_eq/=;
    rewrite ?push_messages_lookup; repeat case_decide; simplify_eq/=;
    try (destruct (joiErrors !! _); cbn; by rewrite ?app_nil_r);
    by destruct (Joi.validate _ _ _).
Qed.

Lemma round_lookup_other k (joiErrors : JoiErrors) r :
  k ≠ "param" → k ≠ "query" → k ≠ "body" →
  round joiErrors r !! k = joiErrors !! k.
Proof.
  intros ???. unfold round, Spec.round.
  destruct (RequestBuilder.type r); cbn;
    rewrite ?push_messages_lookup; by repeat case_decide.
Qed.

Lemma rounds_lookup ty key rules (joiErrors : JoiErrors) :
  key_of ty = Some key →
  fold_left round rules joiErrors !! key =
    (fun arr => arr ++ flat_map (round_messages ty) rules)
      <$> joiErrors !! key.
Proof.
  intros Hkey. revert joiErrors.
  induction rules as [|r rules IH]; intros joiErrors; cbn.
  - destruct (joiErrors !! key); cbn; by rewrite ?app_nil_r.
  - rewrite IH, (round_lookup ty) by done.
    destruct (joiErrors !! key); cbn; by rewrite <- ?app_assoc.
Qed.

Lemma rounds_lookup_other k rules (joiErrors : JoiErrors) :
  k ≠ "param" → k ≠ "query" → k ≠ "body" →
  fold_left round rules joiErrors !! k = joiErrors !! k.
Proof.
  intros ???. revert joiErrors.
  induction rules as [|r rules IH]; intros joiErrors; cbn; [done|].
  by rewrite IH, round_lookup_other.
Qed.

Lemma round_messages_library ty section rules :
  section_of ty params query body = Some section →
  flat_map (round_messages ty) rules = library_messages ty section rules.
Proof.
  intros Hsec.
  unfold library_messages, rules_of, round_messages, Spec.round_messages.
  rewrite Hsec.
  induction rules as [|r rules IH]; [reflexivity|].
  cbn [flat_map]. rewrite filter_cons.
  case_decide; cbn [flat_map]; by rewrite IH.
Qed.

End Loop.

(** ** joiValidator against its specification *)

Lemma delete_if_empty_lookup key (joiErrors : JoiErrors) k :
  delete_if_empty key joiErrors !! k =
    if decide (key = k)
    then match joiErrors !! k with
         | Some [] => None
         | other => other
         end
    else joiErrors !! k.
Proof.
  unfold delete_if_empty.
  case_decide as Hlen; case_decide as Hk; subst.
  - rewrite lookup_delete_eq.
    by destruct (joiErrors !! k) as [[|??]|].
  - by rewrite lookup_delete_ne.
  - by destruct (joiErrors !! k) as [[|??]|].
  - done.
Qed.

Lemma section_entry_lookup key msgs k :
  section_entry key msgs !! k =
    if decide (key = k)
    then match msgs with [] => None | _ => Some msgs end
    else None.
Proof.
  unfold section_entry. destruct msgs; case_decide; subst;
    by rewrite ?lookup_empty, ?lookup_singleton_eq, ?lookup_singleton_ne.
Qed.

Lemma library_errors_lookup params query body rules k :
  library_errors params query body rules !! k =
    if decide (k = "query") then
      match library_messages QUERY query rules with
      | [] => None | msgs => Some msgs end
    else if decide (k = "param") then
      match library_messages PARAMS params rules with
      | [] => None | msgs => Some msgs end
    else if decide (k = "body") then
      match library_messages BODY body rules with
      | [] => None | msgs => Some msgs end
    else None.
Proof.
  unfold library_errors.
  rewrite !lookup_union, !section_entry_lookup.
  repeat case_decide; simplify_eq;
    repeat match goal with
           | |- context [match ?l with [] => _ | _ => _ end] => destruct l
           end; done.
Qed.

Lemma joiValidator_eq params query body validationRules :
  joiValidator params query body validationRules =
    (flat_map (rule_call params query body)
       (RequestBuilder.payload validationRules),
     inr (joiValidator_spec params query body validationRules)).
Proof.
  unfold joiValidator, joiValidator_spec, RequestBuilder.get.
  destruct validationRules as [rules]; cbn [RequestBuilder.payload].
  case_decide as Hlen.
  - destruct rules; [|done]. reflexivity.
  - rewrite forEach_rounds. cbn [bind].
    set (m0 := <["body" := []]> (<["param" := []]> (<["query" := []]> ∅))).
    set (m := delete_if_empty "body" _).
    assert (m = library_errors params query body rules) as ->.
    { apply map_eq; intros k. subst m.
      rewrite !delete_if_empty_lookup, library_errors_lookup.
      destruct (decide (k = "query")) as [->|];
        [|destruct (decide (k = "param")) as [->|];
          [|destruct (decide (k = "body")) as [->|]]].
      - rewrite (rounds_lookup _ _ _ QUERY) by done.
        rewrite (round_messages_library _ _ _ QUERY query) by done.
        subst m0. simplify_map_eq. by destruct (library_messages _ _ _).
      - rewrite (rounds_lookup _ _ _ PARAMS) by done.
        rewrite (round_messages_library _ _ _ PARAMS params) by done.
        subst m0. simplify_map_eq. by destruct (library_messages _ _ _).
      - rewrite (rounds_lookup _ _ _ BODY) by done.
        rewrite (round_messages_library _ _ _ BODY body) by done.
        subst m0. simplify_map_eq. by destruct (library_messages _ _ _).
      - rewrite rounds_lookup_other by done.
        subst m0. repeat case_decide; simplify_map_eq; done. }
    clear m0 Hlen.
    destruct (decide (size _ = 0)) as [Hsz|Hsz];
      destruct (decide (_ = ∅)) as [Hemp|Hemp];
      cbn; rewrite ?app_nil_r; try reflexivity; exfalso.
    + by apply map_size_empty_iff in Hsz.
    + by rewrite Hemp, map_size_empty in Hsz.
Qed.

(** ** The handler, case by case *)

Lemma rule_call_no_response params query body rules :
  responses (flat_map (rule_call params query body) rules) = [] ∧
  restController_calls (flat_map (rule_call params query body) rules) = [].
Proof.
  unfold responses, restController_calls.
  induction rules as [|r rules [IH1 IH2]]; [done|].
  cbn [flat_map]. rewrite !List.filter_app, IH1, IH2.
  unfold rule_call. by destruct (section_of _ _ _ _).
Qed.

Lemma handler_body_cases self req :
  let rules := validate self () in
  let calls :=
    flat_map (rule_call (params req) (query req) (body req))
      (RequestBuilder.payload rules) in
  handler_body self req =
    match joiValidator_spec (params req) (query req) (body req) rules with
    | Some joiErrors =>
        (EvNew self :: EvValidate self :: calls ++
           [EvStatus (VNum 400); EvJson (validation_error_body joiErrors)],
         inr tt)
    | None =>
        let '(tr, r) :=
          after_restController
            (restController self (params req) (query req) (body req)
               (headers req) (allData req)) in
        (EvNew self :: EvValidate self :: calls ++
           restController_call self req :: tr, r)
    end.
Proof.
  intros rules calls. unfold handler_body.
  cbn [bind emit ret app]. fold rules.
  rewrite joiValidator_eq. fold calls. cbn [bind].
  destruct (joiValidator_spec _ _ _ _) as [joiErrors|].
  - cbn. reflexivity.
  - unfold after_restController, restController_call, settle. cbn [class_of].
    destruct (restController _ _ _ _ _ _) as [e|result]; cbn; [done|].
    destruct (get_prop result "response") as [e|response]; cbn; [done|].
    destruct (get_prop response "status") as [e|status]; cbn; done.
Qed.

Lemma joiValidator_outcome params query body validationRules :
  outcome (joiValidator params query body validationRules) =
    inr (joiValidator_spec params query body validationRules).
Proof. by rewrite joiValidator_eq. Qed.

Lemma joiValidator_trace params query body validationRules :
  trace (joiValidator params query body validationRules) =
    flat_map (rule_call params query body)
      (RequestBuilder.payload validationRules).
Proof. by rewrite joiValidator_eq. Qed.

Lemma handler_invalid self req joiErrors :
  joiValidator_spec (params req) (query req) (body req) (validate self ())
    = Some joiErrors →
  handler self req =
    EvNew self :: EvValidate self ::
      flat_map (rule_call (params req) (query req) (body req))
        (RequestBuilder.payload (validate self ())) ++
      [EvStatus (VNum 400); EvJson (validation_error_body joiErrors)].
Proof.
  intros Hspec. unfold handler, asyncHandler.
  by rewrite handler_body_cases, Hspec.
Qed.

Lemma handler_valid self req :
  joiValidator_spec (params req) (query req) (body req) (validate self ())
    = None →
  handler_body self req =
    (EvNew self :: EvValidate self ::
       flat_map (rule_call (params req) (query req) (body req))
         (RequestBuilder.payload (validate self ())) ++
       restController_call self req ::
       trace (after_restController
                (restController self (params req) (query req) (body req)
                   (headers req) (allData req))),
     outcome (after_restController
                (restController self (params req) (query req) (body req)
                   (headers req) (allData req)))).
Proof.
  intros Hspec. rewrite handler_body_cases, Hspec.
  by destruct (after_restController _).
Qed.

Lemma responses_prefix self calls tail :
  responses calls = [] →
  responses (EvNew self :: EvValidate self :: calls ++ tail) = responses tail.
Proof.
  unfold responses. intros Hcalls. cbn.
  by rewrite List.filter_app, Hcalls.
Qed.

Lemma restController_calls_prefix self calls tail :
  restController_calls calls = [] →
  restController_calls (EvNew self :: EvValidate self :: calls ++ tail)
    = restController_calls tail.
Proof.
  unfold restController_calls. intros Hcalls. cbn.
  by rewrite List.filter_app, Hcalls.
Qed.

(** ** Sample runs *)

Example run_valid_request :
  MasterController.handler Example.UserController Example.good_request =
    [EvNew Example.UserController; EvValidate Example.UserController;
     EvSchemaValidate (Example.object_keys ["id"])
       (params Example.good_request) joiOptions;
     EvSchemaValidate (Example.object_keys ["email"; "password"])
       (body Example.good_request) joiOptions;
     restController_call Example.UserController Example.good_request;
     EvStatus (VNum 200); EvJson Example.success_response].
Proof. vm_compute. reflexivity. Qed.

Example run_invalid_request :
  MasterController.handler Example.UserController Example.bad_request =
    [EvNew Example.UserController; EvValidate Example.UserController;
     EvSchemaValidate (Example.object_keys ["id"])
       (params Example.bad_request) joiOptions;
     EvSchemaValidate (Example.object_keys ["email"; "password"])
       (body Example.bad_request) joiOptions;
     EvStatus (VNum 400); EvJson (validation_error_body Example.bad_errors)].
Proof. vm_compute. reflexivity. Qed.

Example run_throwing_controller :
  MasterController.handler Example.FailingController Example.good_request =
    [EvNew Example.FailingController; EvValidate Example.FailingController;
     EvSchemaValidate (Example.object_keys ["id"])
       (params Example.good_request) joiOptions;
     EvSchemaValidate (Example.object_keys ["email"; "password"])
       (body Example.good_request) joiOptions;
     restController_call Example.FailingController Example.good_request;
     EvNext (Thrown (VStr "database unavailable"))].
Proof. vm_compute. reflexivity. Qed.

Example run_spread_of_string_and_array :
  map_to_list
    (allData {| params := VObj {[ "id" := VNum 1 ]}; query := VStr "ab";
                body := VArr [VNull]; headers := VUndefined;
                own := {[ "id" := VNum 2 ]} |})
  = [("id", VNum 2); ("1", VStr "b"); ("0", VNull)].
Proof. vm_compute. reflexivity. Qed.

(** ** Validation failure (C1) *)

(** C1: for every request for which joiValidator returns a non-null error
    object, the handler produced by [MasterController.handler] ends by
    responding with status 400 and the JSON body
    {status: 400, message: 'Validation Error', data: null, errors: <the
    joiValidator result>}; these two calls are the only ones made on the
    response, and the subclass's restController is called nowhere in the
    handling of the request. *)
Theorem validation_failure_responds_400
    (self : ControllerClass) (req : Request) (joiErrors : JoiErrors) :
  outcome (joiValidator (params req) (query req) (body req) (validate self ()))
    = inr (Some joiErrors) →
  let body400 :=
    VObj (<["errors" := errors_value joiErrors]>
         (<["data" := VNull]>
         (<["message" := VStr "Validation Error"]>
         (<["status" := VNum 400]> ∅)))) in
  (∃ before,
     MasterController.handler self req =
       before ++ [EvStatus (VNum 400); EvJson body400]) ∧
  responses (MasterController.handler self req) =
    [EvStatus (VNum 400); EvJson body400] ∧
  restController_calls (MasterController.handler self req) = [].
Proof.
  intros Hjoi body400.
  rewrite joiValidator_outcome in Hjoi. injection Hjoi as Hspec.
  rewrite (handler_invalid _ _ _ Hspec).
  destruct (rule_call_no_response (params req) (query req) (body req)
              (RequestBuilder.payload (validate self ()))) as [Hresp Hrest].
  split; [|split].
  - eexists (EvNew self :: EvValidate self :: _). reflexivity.
  - by rewrite responses_prefix.
  - by rewrite restController_calls_prefix.
Qed.

Lemma validation_failure_responds_400_witness :
  outcome (joiValidator (params Example.bad_request)
             (query Example.bad_request) (body Example.bad_request)
             (validate Example.UserController ()))
    = inr (Some Example.bad_errors) ∧
  responses (MasterController.handler Example.UserController Example.bad_request)
    = [EvStatus (VNum 400);
       EvJson (VObj (<["errors" := errors_value Example.bad_errors]>
                    (<["data" := VNull]>
                    (<["message" := VStr "Validation Error"]>
                    (<["status" := VNum 400]> ∅)))))] ∧
  restController_calls
    (MasterController.handler Example.UserController Example.bad_request) = [].
Proof.
  assert (outcome (joiValidator (params Example.bad_request)
             (query Example.bad_request) (body Example.bad_request)
             (validate Example.UserController ()))
          = inr (Some Example.bad_errors)) as Hjoi
    by (vm_compute; reflexivity).
  split; [exact Hjoi|].
  apply (validation_failure_responds_400 Example.UserController
           Example.bad_request Example.bad_errors Hjoi).
Defined.

(** ** joiValidator is a pass-through to the schema library (C2) *)

Lemma reported_spec params query body validationRules key :
  reported (joiValidator_spec params query body validationRules) key =
    default []
      (library_errors params query body
         (RequestBuilder.payload validationRules) !! key).
Proof.
  unfold joiValidator_spec, reported. cbn zeta.
  case_decide as Hemp; [|reflexivity].
  by rewrite Hemp, lookup_empty.
Qed.

(** C2: joiValidator checks each configured rule only against the request
    section of the rule's type (a PARAMS rule against params, a QUERY rule
    against query, a BODY rule against body), by one call of the schema's
    validate per rule, in rule order; and the messages it reports for a
    section are exactly those the library produced for that section's rules,
    concatenated in rule order: its result is the one the specification
    words, with no validation of its own. *)
Theorem joiValidator_pass_through
    (params query body : Value) (validationRules : RequestBuilder.t) :
  trace (joiValidator params query body validationRules) =
    flat_map
      (fun r =>
         match RequestBuilder.type r with
         | PARAMS => [EvSchemaValidate (RequestBuilder.schema r) params joiOptions]
         | QUERY => [EvSchemaValidate (RequestBuilder.schema r) query joiOptions]
         | BODY => [EvSchemaValidate (RequestBuilder.schema r) body joiOptions]
         | OTHER => []
         end)
      (RequestBuilder.payload validationRules) ∧
  ∃ res,
    outcome (joiValidator params query body validationRules) = inr res ∧
    res = joiValidator_spec params query body validationRules ∧
    reported res "param" =
      library_messages PARAMS params (RequestBuilder.payload validationRules) ∧
    reported res "query" =
      library_messages QUERY query (RequestBuilder.payload validationRules) ∧
    reported res "body" =
      library_messages BODY body (RequestBuilder.payload validationRules).
Proof.
  split.
  - rewrite joiValidator_trace. apply flat_map_ext. intros r.
    unfold rule_call. by destruct (RequestBuilder.type r).
  - eexists. split; [apply joiValidator_outcome|].
    split; [reflexivity|].
    rewrite !reported_spec, !library_errors_lookup.
    repeat split; repeat case_decide; try done;
      by destruct (library_messages _ _ _).
Qed.

(** ** When joiValidator returns null (C7) *)

Lemma library_errors_empty params query body rules :
  library_errors params query body rules = ∅ ↔
    library_messages QUERY query rules = [] ∧
    library_messages PARAMS params rules = [] ∧
    library_messages BODY body rules = [].
Proof.
  split.
  - intros Hemp.
    pose proof (library_errors_lookup params query body rules "query") as Hq.
    pose proof (library_errors_lookup params query body rules "param") as Hp.
    pose proof (library_errors_lookup params query body rules "body") as Hb.
    rewrite Hemp, lookup_empty in Hq, Hp, Hb.
    repeat case_decide; try done.
    by destruct (library_messages QUERY _ _), (library_messages PARAMS _ _),
      (library_messages BODY _ _).
  - intros (Hq & Hp & Hb). unfold library_errors.
    rewrite Hq, Hp, Hb. cbn. by rewrite !(left_id_L ∅ (∪)).
Qed.

Lemma library_messages_nil ty section rules :
  library_messages ty section rules = [] ↔
    Forall (fun r =>
              RequestBuilder.type r = ty →
              messages_of
                (Joi.validate (RequestBuilder.schema r) section joiOptions) = [])
      rules.
Proof.
  unfold library_messages, rules_of.
  induction rules as [|r rules IH]; [by split|].
  rewrite filter_cons, Forall_cons. case_decide as Hty; cbn [flat_map].
  - rewrite <- IH. split.
    + intros [??]%app_eq_nil. done.
    + intros [Hr ->]. by rewrite Hr.
  - rewrite <- IH. split; [done|]. by intros [_ ?].
Qed.

Lemma messages_of_nil s v :
  errors_have_details s →
  messages_of (Joi.validate s v joiOptions) = [] ↔
    Joi.error (Joi.validate s v joiOptions) = None.
Proof.
  intros Hdet. unfold messages_of.
  destruct (Joi.error _) as [err|] eqn:Herr; [|done].
  split; [|done]. intros Hnil. apply Hdet in Herr.
  by destruct (Joi.details err).
Qed.

Lemma no_error_produced params query body rules :
  Forall (fun r => errors_have_details (RequestBuilder.schema r)) rules →
  Forall (fun r => ¬ produced_error params query body r) rules ↔
    library_messages QUERY query rules = [] ∧
    library_messages PARAMS params rules = [] ∧
    library_messages BODY body rules = [].
Proof.
  intros Hdet. rewrite !library_messages_nil, !Forall_forall.
  rewrite Forall_forall in Hdet. unfold produced_error. split.
  - intros Hno. repeat split; intros r Hr Hty;
      apply messages_of_nil; [by apply Hdet| |by apply Hdet| |by apply Hdet|];
      destruct (Joi.error _) eqn:Herr; try done;
      exfalso; apply (Hno r Hr); eexists; rewrite Hty; split;
        try reflexivity; by rewrite Herr.
  - intros (Hq & Hp & Hb) r Hr (section & Hsec & Herr).
    apply Herr.
    destruct (RequestBuilder.type r) eqn:Hty; simplify_eq/=;
      apply messages_of_nil; auto.
Qed.

Lemma no_message_produced params query body rules :
  Forall (fun r => ¬ produced_message params query body r) rules ↔
    library_messages QUERY query rules = [] ∧
    library_messages PARAMS params rules = [] ∧
    library_messages BODY body rules = [].
Proof.
  rewrite !library_messages_nil, !Forall_forall.
  unfold produced_message. split.
  - intros Hno. repeat split; intros r Hr Hty;
      destruct (messages_of _) eqn:Hmsgs; try done;
      exfalso; apply (Hno r Hr); eexists; rewrite Hty; split;
        try reflexivity; by rewrite Hmsgs.
  - intros (Hq & Hp & Hb) r Hr (section & Hsec & Hmsgs).
    apply Hmsgs.
    destruct (RequestBuilder.type r) eqn:Hty; simplify_eq/=; auto.
Qed.

(** Where every error the library reports lists at least one detail, a
    validation produces an error exactly when it produces a message, and
    joiValidator returns null if and only if the rule list is empty or no
    schema validation produced an error. *)
Lemma joiValidator_null_iff_with_details
    (params query body : Value) (validationRules : RequestBuilder.t) :
  Forall (fun r => errors_have_details (RequestBuilder.schema r))
    (RequestBuilder.payload validationRules) →
  outcome (joiValidator params query body validationRules) = inr None ↔
    RequestBuilder.get validationRules = [] ∨
    Forall (fun r => ¬ produced_error params query body r)
      (RequestBuilder.payload validationRules).
Proof.
  intros Hdet. rewrite joiValidator_outcome.
  rewrite (no_error_produced _ _ _ _ Hdet), <- library_errors_empty.
  unfold joiValidator_spec, RequestBuilder.get. cbn zeta.
  case_decide as Hemp; split; try done.
  - by right.
  - intros [Hnil|?]; [|done]. exfalso. apply Hemp.
    apply library_errors_empty. by rewrite Hnil.
Qed.

(** C7, as amended: joiValidator always returns, and it returns null if and
    only if the rule list is empty or no schema validation produced an error
    that lists a detail, that is, an error message; a non-null result has no
    key other than query, param and body, and every key it has maps to a
    non-empty array of messages. *)
Theorem joiValidator_null_iff_no_message
    (params query body : Value) (validationRules : RequestBuilder.t) :
  (∃ res, outcome (joiValidator params query body validationRules) = inr res) ∧
  (outcome (joiValidator params query body validationRules) = inr None ↔
     RequestBuilder.get validationRules = [] ∨
     Forall (fun r => ¬ produced_message params query body r)
       (RequestBuilder.payload validationRules)) ∧
  (∀ joiErrors,
     outcome (joiValidator params query body validationRules)
       = inr (Some joiErrors) →
     dom joiErrors ⊆ ({[ "query"; "param"; "body" ]} : gset string) ∧
     ∀ key msgs, joiErrors !! key = Some msgs → msgs ≠ []).
Proof.
  rewrite joiValidator_outcome.
  split; [by eexists|]. split.
  - rewrite no_message_produced, <- library_errors_empty.
    unfold joiValidator_spec, RequestBuilder.get. cbn zeta.
    case_decide as Hemp; split; try done.
    + by right.
    + intros [Hnil|?]; [|done]. exfalso. apply Hemp.
      apply library_errors_empty. by rewrite Hnil.
  - intros joiErrors [= Hspec]. unfold joiValidator_spec in Hspec.
    cbn zeta in Hspec. case_decide; simplify_eq. split.
    + intros k [msgs Hk]%elem_of_dom.
      rewrite library_errors_lookup in Hk.
      apply elem_of_union. rewrite elem_of_union, !elem_of_singleton.
      repeat case_decide; simplify_eq; auto.
    + intros k msgs Hk. rewrite library_errors_lookup in Hk.
      repeat case_decide; simplify_eq;
        by destruct (library_messages _ _ _); simplify_eq.
Qed.

Lemma joiValidator_null_iff_no_message_witness :
  outcome (joiValidator (params Example.bad_request)
             (query Example.bad_request) (body Example.bad_request)
             Example.user_rules) = inr (Some Example.bad_errors) ∧
  dom Example.bad_errors ⊆ ({[ "query"; "param"; "body" ]} : gset string) ∧
  ∀ key msgs, Example.bad_errors !! key = Some msgs → msgs ≠ [].
Proof.
  assert (outcome (joiValidator (params Example.bad_request)
             (query Example.bad_request) (body Example.bad_request)
             Example.user_rules) = inr (Some Example.bad_errors)) as Hjoi
    by (vm_compute; reflexivity).
  split; [exact Hjoi|].
  destruct (joiValidator_null_iff_no_message (params Example.bad_request)
              (query Example.bad_request) (body Example.bad_request)
              Example.user_rules) as (_ & _ & Hshape).
  exact (Hshape Example.bad_errors Hjoi).
Defined.

(** C7, as first stated, fails: for a rule list of one BODY rule whose schema
    reports an error without any detail, a schema validation produced an
    error and the rule list is not empty, and yet joiValidator returns
    null. *)
Lemma joiValidator_null_despite_error :
  ¬ (outcome (joiValidator (VObj ∅) (VObj ∅) (VObj ∅) Scenario.silent_rules)
       = inr None ↔
     RequestBuilder.get Scenario.silent_rules = [] ∨
     Forall (fun r => ¬ produced_error (VObj ∅) (VObj ∅) (VObj ∅) r)
       (RequestBuilder.payload Scenario.silent_rules)).
Proof.
  intros [Hnull _].
  assert (outcome (joiValidator (VObj ∅) (VObj ∅) (VObj ∅)
                     Scenario.silent_rules) = inr None) as Hjoi
    by (vm_compute; reflexivity).
  destruct (Hnull Hjoi) as [Hempty|Hno]; [discriminate Hempty|].
  apply Forall_cons in Hno as [Hno _]. apply Hno.
  exists (VObj ∅). split; [reflexivity|]. discriminate.
Qed.

(** ** The request path after validation (C3, C4, C5) *)

Lemma handler_wraps_body self req :
  MasterController.handler self req =
    trace (handler_body self req) ++
    match outcome (handler_body self req) with
    | inl e => [EvNext e]
    | inr _ => []
    end.
Proof.
  unfold MasterController.handler, asyncHandler.
  destruct (handler_body self req) as [tr [e|[]]]; cbn; by rewrite ?app_nil_r.
Qed.

Lemma after_restController_trace settled :
  trace (after_restController settled) = [] ∨
  ∃ result response status,
    settled = inr result ∧
    get_prop result "response" = inr response ∧
    get_prop response "status" = inr status ∧
    after_restController settled = ([EvStatus status; EvJson response], inr tt).
Proof.
  unfold after_restController.
  destruct settled as [e|result]; [by left|].
  destruct (get_prop result "response") as [e|response] eqn:Hresp; [by left|].
  destruct (get_prop response "status") as [e|status] eqn:Hst; [by left|].
  right. by exists result, response, status.
Qed.





(** C4: for every request the handler performs its steps in this order: it
    constructs the controller, merges req.params, req.query, req.body,
    req.headers and the request object into allData, obtains the validation
    rules from the class's validate, runs joiValidator on params, query and
    body (whose calls of the schema library come next in the trace), and then
    either sends the 400 response or calls the instance's restController with
    (params, query, body, headers, allData) and, from the value it resolves
    to, sends status and JSON body.  What the wrapper adds is the hand-over of
    a rejection to next. *)
Theorem handler_steps_in_order (self : ControllerClass) (req : Request) :
  let merged :=
    spread (spread (spread (spread (spread ∅ (params req)) (query req))
      (body req)) (headers req)) (VObj (own req)) in
  let validation :=
    joiValidator (params req) (query req) (body req) (validate self ()) in
  ∃ res,
    outcome validation = inr res ∧
    trace (handler_body self req) =
      [EvNew self; EvValidate self] ++ trace validation ++
      match res with
      | Some joiErrors =>
          [EvStatus (VNum 400); EvJson (validation_error_body joiErrors)]
      | None =>
          EvRestController {| class_of := self |} (params req) (query req)
            (body req) (headers req) merged ::
          match restController self (params req) (query req) (body req)
                  (headers req) merged with
          | inl _ => []
          | inr result =>
              match get_prop result "response" with
              | inl _ => []
              | inr response =>
                  match get_prop response "status" with
                  | inl _ => []
                  | inr status => [EvStatus status; EvJson response]
                  end
              end
          end
      end ∧
    MasterController.handler self req =
      trace (handler_body self req) ++
      match outcome (handler_body self req) with
      | inl e => [EvNext e]
      | inr _ => []
      end.
Proof.
  intros merged validation. subst validation.
  exists (joiValidator_spec (params req) (query req) (body req)
            (validate self ())).
  split; [apply joiValidator_outcome|].
  split; [|apply handler_wraps_body].
  rewrite joiValidator_trace, handler_body_cases. cbn zeta.
  destruct (joiValidator_spec _ _ _ _) as [joiErrors|]; [done|].
  change (allData req) with merged.
  unfold after_restController, restController_call.
  destruct (restController _ _ _ _ _ _) as [e|result]; [done|].
  destruct (get_prop result "response") as [e|response]; [done|].
  by destruct (get_prop response "status") as [e|status].
Qed.

(** C5: every response the handler sends has one of two shapes.  On
    validation failure it is status 400 with a body that has exactly the
    fields status, message, data and errors.  On success the status code sent
    is the status field of the object found under the property response of
    the value restController resolved to, and the body is that object itself.
    Nothing else is ever sent. *)
Theorem responses_are_normalized (self : ControllerClass) (req : Request) :
  ∃ res,
    outcome (joiValidator (params req) (query req) (body req)
               (validate self ())) = inr res ∧
    match res with
    | Some joiErrors =>
        ∃ fields,
          responses (MasterController.handler self req) =
            [EvStatus (VNum 400); EvJson (VObj fields)] ∧
          dom fields =
            ({[ "status"; "message"; "data"; "errors" ]} : gset string)
    | None =>
        match restController self (params req) (query req) (body req)
                (headers req) (allData req) with
        | inl _ => responses (MasterController.handler self req) = []
        | inr result =>
            match get_prop result "response" with
            | inl _ => responses (MasterController.handler self req) = []
            | inr response =>
                match get_prop response "status" with
                | inl _ => responses (MasterController.handler self req) = []
                | inr status =>
                    responses (MasterController.handler self req) =
                      [EvStatus status; EvJson response]
                end
            end
        end
    end.
Proof.
  exists (joiValidator_spec (params req) (query req) (body req)
            (validate self ())).
  split; [apply joiValidator_outcome|].
  destruct (rule_call_no_response (params req) (query req) (body req)
              (RequestBuilder.payload (validate self ()))) as [Hresp _].
  destruct (joiValidator_spec _ _ _ _) as [joiErrors|] eqn:Hspec.
  - eexists. rewrite (handler_invalid _ _ _ Hspec), responses_prefix by done.
    split; [reflexivity|].
    rewrite !dom_insert_L, dom_empty_L. set_solver.
  - rewrite handler_wraps_body, (handler_valid _ _ Hspec).
    cbn [trace outcome fst snd].
    rewrite <- !app_comm_cons, <- app_assoc, responses_prefix by done.
    unfold after_restController.
    destruct (restController _ _ _ _ _ _) as [e|result]; [done|].
    destruct (get_prop result "response") as [e|response]; [done|].
    by destruct (get_prop response "status") as [e|status].
Qed.

(** ** Route registration (C6) *)

Lemma rule_call_callee params query body rules :
  Forall (fun ev => callee ev = None)
    (flat_map (rule_call params query body) rules).
Proof.
  induction rules as [|r rules IH]; [constructor|].
  cbn [flat_map]. apply Forall_app. split; [|done].
  unfold rule_call. destruct (section_of _ _ _ _); repeat constructor.
Qed.

Lemma next_not_response (r : Exn + unit) :
  responses (match r with inl e => [EvNext e] | inr _ => [] end) = [] ∧
  restController_calls (match r with inl e => [EvNext e] | inr _ => [] end) = [].
Proof. by destruct r. Qed.

Lemma handler_body_trace self req :
  trace (handler_body self req) =
    EvNew self :: EvValidate self ::
    trace (joiValidator (params req) (query req) (body req)
             (validate self ())) ++
    match joiValidator_spec (params req) (query req) (body req)
            (validate self ()) with
    | Some joiErrors =>
        [EvStatus (VNum 400); EvJson (validation_error_body joiErrors)]
    | None =>
        EvRestController {| class_of := self |} (params req) (query req)
          (body req) (headers req) (allData req) ::
        match restController self (params req) (query req) (body req)
                (headers req) (allData req) with
        | inl _ => []
        | inr result =>
            match get_prop result "response" with
            | inl _ => []
            | inr response =>
                match get_prop response "status" with
                | inl _ => []
                | inr status => [EvStatus status; EvJson response]
                end
            end
        end
    end.
Proof.
  rewrite joiValidator_trace, handler_body_cases. cbn zeta.
  destruct (joiValidator_spec _ _ _ _) as [joiErrors|]; [done|].
  unfold after_restController, restController_call.
  destruct (restController _ _ _ _ _ _) as [e|result]; [done|].
  destruct (get_prop result "response") as [e|response]; [done|].
  by destruct (get_prop response "status") as [e|status].
Qed.

(** C6: each call of [MasterController.get] (of [MasterController.post])
    registers exactly one handler on the router, through router.get
    (router.post), under the given path and middlewares; that handler is the
    handler of the class the method was called on.  For every request it
    constructs an instance of that class, takes the rules from that class's
    validate and has them checked by joiValidator; it then either answers 400
    or calls restController on that instance, once, with the request's params,
    query, body, headers and allData, and what it sends is the response that
    class's restController resolved to.  Whatever else the handler does makes
    no call on the response or on restController, and every call it makes on
    a controller class or instance goes to that class. *)
Theorem route_registration_one_to_one
    (self : ControllerClass) (router : Router) (path : string)
    (middlewares : list Middleware) :
  MasterController.get self router path middlewares =
    router ++ [{| route_method := GET; route_path := path;
                  route_middlewares := middlewares;
                  route_handler := MasterController.handler self |}] ∧
  MasterController.post self router path middlewares =
    router ++ [{| route_method := POST; route_path := path;
                  route_middlewares := middlewares;
                  route_handler := MasterController.handler self |}] ∧
  length (MasterController.get self router path middlewares)
    = S (length router) ∧
  length (MasterController.post self router path middlewares)
    = S (length router) ∧
  ∀ req,
    let validation :=
      joiValidator (params req) (query req) (body req) (validate self ()) in
    ∃ res rest,
      outcome validation = inr res ∧
      MasterController.handler self req =
        EvNew self :: EvValidate self :: trace validation ++
        match res with
        | Some joiErrors =>
            [EvStatus (VNum 400); EvJson (validation_error_body joiErrors)]
        | None =>
            EvRestController {| class_of := self |} (params req) (query req)
              (body req) (headers req) (allData req) ::
            match restController self (params req) (query req) (body req)
                    (headers req) (allData req) with
            | inl _ => []
            | inr result =>
                match get_prop result "response" with
                | inl _ => []
                | inr response =>
                    match get_prop response "status" with
                    | inl _ => []
                    | inr status => [EvStatus status; EvJson response]
                    end
                end
            end
        end ++ rest ∧
      responses rest = [] ∧
      restController_calls rest = [] ∧
      Forall (fun ev => callee ev = None) rest ∧
      Forall (fun ev => callee ev = None ∨ callee ev = Some self)
        (MasterController.handler self req).
Proof.
  unfold MasterController.get, MasterController.post, router_get, router_post.
  rewrite !length_app. cbn [length].
  split; [reflexivity|]. split; [reflexivity|].
  split; [lia|]. split; [lia|].
  intros req. cbn zeta.
  exists (joiValidator_spec (params req) (query req) (body req)
            (validate self ())).
  exists (match outcome (handler_body self req) with
          | inl e => [EvNext e]
          | inr _ => []
          end).
  split; [apply joiValidator_outcome|].
  assert (∀ r : Exn + unit,
            Forall (fun ev => callee ev = None)
              (match r with inl e => [EvNext e] | inr _ => [] end)) as Hnext
    by (intros [e|u]; repeat constructor).
  split; [|split; [|split; [|split]]].
  - rewrite handler_wraps_body, handler_body_trace.
    by rewrite <- !app_comm_cons, <- app_assoc.
  - apply next_not_response.
  - apply next_not_response.
  - apply Hnext.
  - pose proof (rule_call_callee (params req) (query req) (body req)
                  (RequestBuilder.payload (validate self ()))) as Hcalls.
    apply (Forall_impl _ (fun ev => callee ev = None ∨ callee ev = Some self))
      in Hcalls; [|by left].
    rewrite handler_wraps_body. apply Forall_app. split.
    2: { eapply Forall_impl; [apply Hnext|]. by left. }
    rewrite handler_body_cases. cbn zeta.
    destruct (joiValidator_spec _ _ _ _).
    + cbn [app trace outcome fst snd].
      repeat (apply Forall_cons; split; [by right|]).
      apply Forall_app. split; [done|].
      repeat (apply Forall_cons; split; [by left|]). constructor.
    + destruct (after_restController _) as [tr r] eqn:Hafter.
      cbn [app trace outcome fst snd].
      repeat (apply Forall_cons; split; [by right|]).
      apply Forall_app. split; [done|].
      apply Forall_cons. split; [by right|].
      destruct (after_restController_trace
                  (restController self (params req) (query req) (body req)
                     (headers req) (allData req)))
        as [Hnil|(result & response & status & _ & _ & _ & Heq)];
        rewrite Hafter in *; simplify_eq/=; repeat constructor.
Qed.

(** ** allData (C9) *)

(** C9: allData is built by spreading req.params, req.query, req.body,
    req.headers and then the request object itself, in that order, so a key
    that occurs in several of these sources takes its value from the last of
    them that has it; in particular an own property of the request object
    shadows any entry of the same name from params, query, body or headers. *)
Theorem allData_later_source_wins (req : Request) :
  allData req =
    spread (spread (spread (spread (spread ∅ (params req)) (query req))
      (body req)) (headers req)) (VObj (own req)) ∧
  (∀ k,
     allData req !! k =
       match own req !! k with
       | Some v => Some v
       | None =>
       match own_enumerable (headers req) !! k with
       | Some v => Some v
       | None =>
       match own_enumerable (body req) !! k with
       | Some v => Some v
       | None =>
       match own_enumerable (query req) !! k with
       | Some v => Some v
       | None => own_enumerable (params req) !! k
       end end end end) ∧
  (∀ k v, own req !! k = Some v → allData req !! k = Some v).
Proof.
  assert (∀ k,
     allData req !! k =
       match own req !! k with
       | Some v => Some v
       | None =>
       match own_enumerable (headers req) !! k with
       | Some v => Some v
       | None =>
       match own_enumerable (body req) !! k with
       | Some v => Some v
       | None =>
       match own_enumerable (query req) !! k with
       | Some v => Some v
       | None => own_enumerable (params req) !! k
       end end end end) as Hlookup.
  { intros k. unfold allData, spread. cbn [own_enumerable].
    rewrite !lookup_union, lookup_empty.
    destruct (own req !! k), (own_enumerable (headers req) !! k),
      (own_enumerable (body req) !! k), (own_enumerable (query req) !! k),
      (own_enumerable (params req) !! k); reflexivity. }
  split; [reflexivity|]. split; [exact Hlookup|].
  intros k v Hown. by rewrite Hlookup, Hown.
Qed.

Lemma allData_later_source_wins_witness :
  own Example.good_request !! "id" = Some (VStr "from-middleware") ∧
  own_enumerable (params Example.good_request) !! "id" = Some (VNum 7) ∧
  allData Example.good_request !! "id" = Some (VStr "from-middleware").
Proof.
  split; [vm_compute; reflexivity|]. split; [vm_compute; reflexivity|].
  apply (allData_later_source_wins Example.good_request).
  vm_compute; reflexivity.
Defined.

(** ** The options of every schema validation (C8) *)



Lemma joiValidator_spec_ext params query body params' query' body' rules :
  library_messages PARAMS params rules = library_messages PARAMS params' rules →
  library_messages QUERY query rules = library_messages QUERY query' rules →
  library_messages BODY body rules = library_messages BODY body' rules →
  joiValidator_spec params query body {| RequestBuilder.payload := rules |} =
  joiValidator_spec params' query' body' {| RequestBuilder.payload := rules |}.
Proof.
  intros Hp Hq Hb. unfold joiValidator_spec, library_errors.
  cbn [RequestBuilder.payload]. by rewrite Hp, Hq, Hb.
Qed.









(** ** Rule lists compose *)

Lemma library_messages_app ty section rules1 rules2 :
  library_messages ty section (rules1 ++ rules2) =
    library_messages ty section rules1 ++ library_messages ty section rules2.
Proof.
  unfold library_messages, rules_of. by rewrite filter_app, flat_map_app.
Qed.

Lemma reported_spec_cases params query body validationRules key :
  reported (joiValidator_spec params query body validationRules) key =
    if decide (key = "query") then
      library_messages QUERY query (RequestBuilder.payload validationRules)
    else if decide (key = "param") then
      library_messages PARAMS params (RequestBuilder.payload validationRules)
    else if decide (key = "body") then
      library_messages BODY body (RequestBuilder.payload validationRules)
    else [].
Proof.
  rewrite reported_spec, library_errors_lookup.
  repeat case_decide; try done; by destruct (library_messages _ _ _).
Qed.

Lemma joiValidator_spec_None params query body validationRules :
  joiValidator_spec params query body validationRules = None ↔
    library_errors params query body
      (RequestBuilder.payload validationRules) = ∅.
Proof. unfold joiValidator_spec. cbn zeta. by case_decide. Qed.

(** X1: validating against two rule lists in a row is validating against
    each: the library calls are those for the first list followed by those
    for the second, and under every key the messages reported are those for
    the first list followed by those for the second. *)
Theorem joiValidator_rules_append
    (params query body : Value) (rules1 rules2 : list Payload) :
  let run rules :=
    joiValidator params query body {| RequestBuilder.payload := rules |} in
  trace (run (rules1 ++ rules2)) = trace (run rules1) ++ trace (run rules2) ∧
  ∃ res res1 res2,
    outcome (run (rules1 ++ rules2)) = inr res ∧
    outcome (run rules1) = inr res1 ∧
    outcome (run rules2) = inr res2 ∧
    ∀ key, reported res key = reported res1 key ++ reported res2 key.
Proof.
  intros run. subst run. cbn beta.
  rewrite !joiValidator_trace, !joiValidator_outcome.
  cbn [RequestBuilder.payload].
  split; [apply flat_map_app|].
  eexists _, _, _. repeat (split; [reflexivity|]).
  intros key. rewrite !reported_spec_cases. cbn [RequestBuilder.payload].
  repeat case_decide; by rewrite ?library_messages_app.
Qed.

(** X2: a request passes the two rule lists in a row exactly when it passes
    each of them; adding rules never turns a refused request into a passing
    one. *)
Theorem joiValidator_passes_append_iff
    (params query body : Value) (rules1 rules2 : list Payload) :
  let run rules :=
    outcome (joiValidator params query body
               {| RequestBuilder.payload := rules |}) in
  run (rules1 ++ rules2) = inr None ↔
    run rules1 = inr None ∧ run rules2 = inr None.
Proof.
  intros run. subst run. cbn beta. rewrite !joiValidator_outcome.
  assert (∀ rules,
    (inr (joiValidator_spec params query body
            {| RequestBuilder.payload := rules |}) : Exn + option JoiErrors)
      = inr None ↔
    library_messages QUERY query rules = [] ∧
    library_messages PARAMS params rules = [] ∧
    library_messages BODY body rules = []) as Hnone.
  { intros rules. rewrite <- library_errors_empty.
    rewrite <- (joiValidator_spec_None _ _ _ {| RequestBuilder.payload := rules |}).
    split; [by intros [= ->]|by intros ->]. }
  rewrite !Hnone, !library_messages_app.
  split.
  - intros ((?&?)%app_eq_nil & (?&?)%app_eq_nil & (?&?)%app_eq_nil). done.
  - intros ((-> & -> & ->) & (-> & -> & ->)). done.
Qed.

(** ** What joiValidator looks at *)

Lemma rules_of_nil_Forall ty rules :
  rules_of ty rules = [] ↔ Forall (fun r => RequestBuilder.type r ≠ ty) rules.
Proof.
  unfold rules_of. induction rules as [|r rules IH]; [by split|].
  rewrite filter_cons, Forall_cons. case_decide as Hty.
  - split; [done|]. by intros [? _].
  - rewrite IH. split; [done|]. by intros [_ ?].
Qed.

Lemma library_messages_no_rules ty section rules :
  rules_of ty rules = [] → library_messages ty section rules = [].
Proof. unfold library_messages. by intros ->. Qed.

Lemma rule_call_ext params query body params' query' body' rules :
  Forall (fun r =>
            section_of (RequestBuilder.type r) params query body =
            section_of (RequestBuilder.type r) params' query' body') rules →
  flat_map (rule_call params query body) rules =
  flat_map (rule_call params' query' body') rules.
Proof.
  induction 1 as [|r rules Hr _ IH]; [reflexivity|].
  cbn [flat_map]. unfold rule_call at 1 3. by rewrite Hr, IH.
Qed.

(** X3: a section for which the rule list holds no rule is never looked at:
    with no BODY rule the library calls and the result of joiValidator are
    the same whatever the body is, and likewise for params without PARAMS
    rules and for query without QUERY rules. *)
Theorem joiValidator_ignores_unruled_section
    (params query body other : Value) (validationRules : RequestBuilder.t) :
  (rules_of BODY (RequestBuilder.payload validationRules) = [] →
   joiValidator params query other validationRules =
   joiValidator params query body validationRules) ∧
  (rules_of PARAMS (RequestBuilder.payload validationRules) = [] →
   joiValidator other query body validationRules =
   joiValidator params query body validationRules) ∧
  (rules_of QUERY (RequestBuilder.payload validationRules) = [] →
   joiValidator params other body validationRules =
   joiValidator params query body validationRules).
Proof.
  destruct validationRules as [rules]. cbn [RequestBuilder.payload].
  repeat split; intros Hnone; rewrite !joiValidator_eq;
    cbn [RequestBuilder.payload]; f_equal.
  all: try (apply rule_call_ext; apply rules_of_nil_Forall in Hnone;
            eapply Forall_impl; [exact Hnone|];
            intros r Hr; cbn beta in Hr;
            by destruct (RequestBuilder.type r)).
  all: f_equal; apply joiValidator_spec_ext; try reflexivity;
    by rewrite !library_messages_no_rules.
Qed.

Lemma joiValidator_ignores_unruled_section_witness :
  rules_of QUERY (RequestBuilder.payload Example.user_rules) = [] ∧
  joiValidator (params Example.bad_request) (VStr "anything")
    (body Example.bad_request) Example.user_rules =
  joiValidator (params Example.bad_request) (query Example.bad_request)
    (body Example.bad_request) Example.user_rules.
Proof.
  assert (rules_of QUERY (RequestBuilder.payload Example.user_rules) = [])
    as Hnone by (vm_compute; reflexivity).
  split; [exact Hnone|].
  apply (joiValidator_ignores_unruled_section (params Example.bad_request)
           (query Example.bad_request) (body Example.bad_request)
           (VStr "anything") Example.user_rules).
  exact Hnone.
Defined.

Lemma library_messages_recognized ty section rules :
  ty ≠ OTHER →
  library_messages ty section (filter recognized rules) =
  library_messages ty section rules.
Proof.
  intros Hty. unfold library_messages, rules_of.
  induction rules as [|r rules IH]; [reflexivity|].
  rewrite (filter_cons recognized), (filter_cons _ r rules).
  unfold recognized at 1.
  repeat case_decide; rewrite ?filter_cons; repeat case_decide;
    cbn [flat_map]; try by rewrite IH. congruence.
Qed.

Lemma rule_call_recognized params query body rules :
  flat_map (rule_call params query body) (filter recognized rules) =
  flat_map (rule_call params query body) rules.
Proof.
  induction rules as [|r rules IH]; [reflexivity|].
  rewrite filter_cons. unfold recognized at 1.
  case_decide as Hty; cbn [flat_map]; rewrite IH; [done|].
  unfold rule_call at 2. by rewrite Hty.
Qed.

(** X4: a rule whose type is none of PARAMS, QUERY and BODY is skipped
    without a trace: joiValidator makes the same library calls and returns
    the same result as on the rule list without such rules, even when they
    are all the list holds. *)
Theorem joiValidator_skips_unrecognized
    (params query body : Value) (validationRules : RequestBuilder.t) :
  joiValidator params query body validationRules =
  joiValidator params query body (recognized_rules validationRules).
Proof.
  rewrite !joiValidator_eq. unfold recognized_rules.
  cbn [RequestBuilder.payload]. rewrite rule_call_recognized.
  f_equal. f_equal. unfold joiValidator_spec, library_errors.
  cbn [RequestBuilder.payload]. by rewrite !library_messages_recognized.
Qed.

(** ** The handler at the edges of the response shape *)

Lemma handler_valid_trace self req :
  joiValidator_spec (params req) (query req) (body req) (validate self ())
    = None →
  let after :=
    after_restController
      (restController self (params req) (query req) (body req) (headers req)
         (allData req)) in
  MasterController.handler self req =
    EvNew self :: EvValidate self ::
      flat_map (rule_call (params req) (query req) (body req))
        (RequestBuilder.payload (validate self ())) ++
      restController_call self req :: trace after ++
      match outcome after with
      | inl e => [EvNext e]
      | inr _ => []
      end.
Proof.
  intros Hspec after. rewrite handler_wraps_body, (handler_valid _ _ Hspec).
  cbn [trace outcome fst snd]. fold after.
  by rewrite <- !app_comm_cons, <- app_assoc.
Qed.

Lemma restController_called_once self req :
  joiValidator_spec (params req) (query req) (body req) (validate self ())
    = None →
  restController_calls (MasterController.handler self req) =
    [restController_call self req].
Proof.
  intros Hspec. rewrite (handler_valid_trace _ _ Hspec).
  destruct (rule_call_no_response (params req) (query req) (body req)
              (RequestBuilder.payload (validate self ()))) as [_ Hrest].
  rewrite restController_calls_prefix by done.
  unfold restController_calls. cbn [List.filter restController_call is_restController].
  f_equal. rewrite List.filter_app.
  destruct (next_not_response
              (outcome (after_restController
                 (restController self (params req) (query req) (body req)
                    (headers req) (allData req))))) as [_ Hnext].
  unfold restController_calls in Hnext. rewrite Hnext, app_nil_r.
  destruct (after_restController_trace
              (restController self (params req) (query req) (body req)
                 (headers req) (allData req)))
    as [->|(? & ? & ? & _ & _ & _ & ->)]; reflexivity.
Qed.

Lemma get_prop_nullish v k :
  nullish v → ∃ msg, get_prop v k = inl (TypeError msg).
Proof. intros [->| ->]; by eexists. Qed.

(** X5: when restController resolves to undefined or null, or to a value
    whose [response] property is undefined or null (an object without that
    property, a primitive), the handler has called restController once, sends
    nothing at all on the response, and its body rejects with a TypeError. *)
Theorem handler_unreadable_response
    (self : ControllerClass) (req : Request) (result : Value) :
  outcome (joiValidator (params req) (query req) (body req) (validate self ()))
    = inr None →
  restController self (params req) (query req) (body req) (headers req)
    (allData req) = inr result →
  nullish result ∨
    (∃ response, get_prop result "response" = inr response ∧ nullish response) →
  (∃ msg, outcome (handler_body self req) = inl (TypeError msg)) ∧
  responses (MasterController.handler self req) = [] ∧
  restController_calls (MasterController.handler self req) =
    [restController_call self req].
Proof.
  intros Hjoi Hres Hbad. rewrite joiValidator_outcome in Hjoi.
  injection Hjoi as Hspec.
  assert (∃ msg, after_restController (inr result) = ([], inl (TypeError msg)))
    as [msg Hafter].
  { unfold after_restController.
    destruct Hbad as [Hnull|(response & Hresp & Hnull)].
    - destruct (get_prop_nullish result "response" Hnull) as [msg ->].
      by eexists.
    - rewrite Hresp.
      destruct (get_prop_nullish response "status" Hnull) as [msg ->].
      by eexists. }
  split; [|split].
  - exists msg. by rewrite (handler_valid _ _ Hspec), Hres, Hafter.
  - rewrite (handler_valid_trace _ _ Hspec). cbn zeta.
    rewrite Hres, Hafter.
    destruct (rule_call_no_response (params req) (query req) (body req)
                (RequestBuilder.payload (validate self ()))) as [Hresp _].
    by rewrite responses_prefix.
  - by apply restController_called_once.
Qed.

Lemma handler_unreadable_response_witness :
  outcome (joiValidator (params Example.good_request)
             (query Example.good_request) (body Example.good_request)
             (validate Scenario.BareController ())) = inr None ∧
  (∃ msg, outcome (handler_body Scenario.BareController Example.good_request)
            = inl (TypeError msg)) ∧
  responses (MasterController.handler Scenario.BareController
               Example.good_request) = [].
Proof.
  assert (outcome (joiValidator (params Example.good_request)
             (query Example.good_request) (body Example.good_request)
             (validate Scenario.BareController ())) = inr None) as Hjoi
    by (vm_compute; reflexivity).
  split; [exact Hjoi|].
  destruct (handler_unreadable_response Scenario.BareController
              Example.good_request Example.success_response Hjoi)
    as (Hthrow & Hnone & _).
  - reflexivity.
  - right. exists VUndefined. split; [vm_compute; reflexivity|by left].
  - split; [exact Hthrow|exact Hnone].
Defined.

(** X6: the handler does not check that the response has a status: when the
    response object restController resolved to is not undefined or null but
    has no [status] of its own (an object without that property, or a
    primitive), the first call the handler makes on the response is
    res.status with undefined, and whatever it sends after that is that
    response object through res.json.  What the response object does with
    such a status is not the handler's. *)
Theorem handler_response_without_status
    (self : ControllerClass) (req : Request) (result response : Value) :
  outcome (joiValidator (params req) (query req) (body req) (validate self ()))
    = inr None →
  restController self (params req) (query req) (body req) (headers req)
    (allData req) = inr result →
  get_prop result "response" = inr response →
  ¬ nullish response →
  (∀ props, response = VObj props → props !! "status" = None) →
  ∃ rest,
    responses (MasterController.handler self req) =
      EvStatus VUndefined :: rest ∧
    Forall (fun ev => ev = EvJson response) rest.
Proof.
  intros Hjoi Hres Hresp Hnull Hstatus. rewrite joiValidator_outcome in Hjoi.
  injection Hjoi as Hspec.
  assert (get_prop response "status" = inr VUndefined) as Hst.
  { destruct response; cbn; try done.
    - exfalso. apply Hnull. by left.
    - exfalso. apply Hnull. by right.
    - by rewrite (Hstatus _ eq_refl). }
  assert (after_restController (inr result) =
            ([EvStatus VUndefined; EvJson response], inr tt)) as Hafter.
  { unfold after_restController. by rewrite Hresp, Hst. }
  rewrite (handler_valid_trace _ _ Hspec). cbn zeta.
  rewrite Hres, Hafter.
  destruct (rule_call_no_response (params req) (query req) (body req)
              (RequestBuilder.payload (validate self ()))) as [Hnone _].
  exists [EvJson response]. split; [by rewrite responses_prefix|].
  by repeat constructor.
Qed.

Lemma handler_response_without_status_witness :
  outcome (joiValidator (params Example.good_request)
             (query Example.good_request) (body Example.good_request)
             (validate Scenario.StatuslessController ())) = inr None ∧
  ∃ rest,
    responses (MasterController.handler Scenario.StatuslessController
                 Example.good_request) =
      EvStatus VUndefined :: rest ∧
    Forall (fun ev => ev = EvJson Scenario.message_only) rest.
Proof.
  assert (outcome (joiValidator (params Example.good_request)
             (query Example.good_request) (body Example.good_request)
             (validate Scenario.StatuslessController ())) = inr None) as Hjoi
    by (vm_compute; reflexivity).
  split; [exact Hjoi|].
  apply (handler_response_without_status Scenario.StatuslessController
           Example.good_request
           (VObj {[ "response" := Scenario.message_only ]})
           Scenario.message_only Hjoi).
  - reflexivity.
  - vm_compute; reflexivity.
  - intros [Hnull|Hnull]; discriminate Hnull.
  - intros props Hprops. injection Hprops as <-. vm_compute; reflexivity.
Defined.

(** ** What the handler validates *)

Lemma validated_rule_calls params query body rules :
  omap validated_value (flat_map (rule_call params query body) rules) =
    omap (fun r => section_of (RequestBuilder.type r) params query body) rules.
Proof.
  induction rules as [|r rules IH]; [reflexivity|].
  cbn [flat_map]. rewrite omap_app, IH. unfold rule_call.
  destruct (section_of _ _ _ _) eqn:Hsec; cbn; by rewrite Hsec.
Qed.

Lemma validated_prefix self calls tail :
  omap validated_value (EvNew self :: EvValidate self :: calls ++ tail) =
    omap validated_value calls ++ omap validated_value tail.
Proof. simpl. apply omap_app. Qed.

Lemma validated_handler self req :
  omap validated_value (MasterController.handler self req) =
    omap (fun r =>
            section_of (RequestBuilder.type r) (params req) (query req)
              (body req))
      (RequestBuilder.payload (validate self ())).
Proof.
  destruct (joiValidator_spec (params req) (query req) (body req)
              (validate self ())) as [joiErrors|] eqn:Hspec.
  - rewrite (handler_invalid _ _ _ Hspec), validated_prefix.
    rewrite validated_rule_calls. simpl. by rewrite app_nil_r.
  - rewrite (handler_valid_trace _ _ Hspec). cbn zeta.
    rewrite validated_prefix, validated_rule_calls.
    destruct (after_restController_trace
                (restController self (params req) (query req) (body req)
                   (headers req) (allData req)))
      as [Hnil|(? & ? & ? & _ & _ & _ & Hafter)].
    + rewrite Hnil.
      destruct (outcome (after_restController _)); simpl;
        by rewrite app_nil_r.
    + rewrite Hafter. simpl. by rewrite app_nil_r.
Qed.

Lemma section_of_recognized params query body rules :
  length (omap (fun r =>
                  section_of (RequestBuilder.type r) params query body) rules)
    = length (filter recognized rules).
Proof.
  induction rules as [|r rules IH]; [reflexivity|].
  rewrite filter_cons. unfold recognized at 1. simpl.
  case_decide as Hty.
  - destruct (RequestBuilder.type r); try done; simpl; f_equal; exact IH.
  - rewrite Hty. simpl. exact IH.
Qed.

(** X7: whatever the request and whatever comes of it, the handler has the
    schema library validate nothing but the request's params, query and body
    (never its headers, never allData), and it makes exactly one library call
    for each rule of recognized type: validation does not stop at the first
    rule that fails. *)
Theorem handler_validates_three_sections
    (self : ControllerClass) (req : Request) :
  Forall (fun v => v = params req ∨ v = query req ∨ v = body req)
    (omap validated_value (MasterController.handler self req)) ∧
  length (omap validated_value (MasterController.handler self req)) =
    length (filter recognized (RequestBuilder.payload (validate self ()))).
Proof.
  rewrite validated_handler. split; [|apply section_of_recognized].
  induction (RequestBuilder.payload (validate self ())) as [|r rules IH];
    [constructor|].
  simpl. destruct (RequestBuilder.type r); simpl;
    try (apply Forall_cons; split); auto.
Qed.

(** X8: a controller class none of whose rules has a recognized type, in
    particular one that declares no rule, never lets a request be refused:
    for every request the handler constructs the controller, asks for the
    rules and goes straight to restController, which it calls once, without
    any call of the schema library. *)
Theorem handler_without_rules (self : ControllerClass) (req : Request) :
  filter recognized (RequestBuilder.payload (validate self ())) = [] →
  (∃ rest,
     MasterController.handler self req =
       [EvNew self; EvValidate self; restController_call self req] ++ rest) ∧
  restController_calls (MasterController.handler self req) =
    [restController_call self req] ∧
  outcome (joiValidator (params req) (query req) (body req) (validate self ()))
    = inr None.
Proof.
  intros Hnone.
  assert (outcome (joiValidator (params req) (query req) (body req)
                     (validate self ())) = inr None) as Hjoi.
  { rewrite joiValidator_outcome. f_equal.
    apply joiValidator_spec_None, library_errors_empty.
    rewrite <- (library_messages_recognized QUERY),
      <- (library_messages_recognized PARAMS),
      <- (library_messages_recognized BODY), Hnone by done.
    done. }
  pose proof Hjoi as Hspec. rewrite joiValidator_outcome in Hspec.
  injection Hspec as Hspec.
  split; [|split; [by apply restController_called_once|exact Hjoi]].
  rewrite (handler_valid_trace _ _ Hspec). cbn zeta.
  rewrite <- rule_call_recognized, Hnone. cbn [flat_map app].
  by eexists.
Qed.

Lemma handler_without_rules_witness :
  filter recognized
    (RequestBuilder.payload (validate Scenario.OpenController ())) = [] ∧
  restController_calls
    (MasterController.handler Scenario.OpenController Example.bad_request) =
    [restController_call Scenario.OpenController Example.bad_request].
Proof.
  assert (filter recognized
            (RequestBuilder.payload (validate Scenario.OpenController ())) = [])
    as Hnone by reflexivity.
  split; [exact Hnone|].
  apply (handler_without_rules Scenario.OpenController Example.bad_request
           Hnone).
Defined.

(** ** What allData holds *)

(** X9: allData loses no key: its keys are exactly the keys of params, of
    query, of body, of headers and the own properties of the request, taken
    together. *)
Theorem allData_keys (req : Request) :
  dom (allData req) =
    dom (own_enumerable (params req)) ∪ dom (own_enumerable (query req)) ∪
    dom (own_enumerable (body req)) ∪ dom (own_enumerable (headers req)) ∪
    dom (own req).
Proof.
  unfold allData, spread. cbn [own_enumerable].
  rewrite !dom_union_L, dom_empty_L. apply set_eq. intros k.
  rewrite !elem_of_union, elem_of_empty. tauto.
Qed.

Lemma indexed_lookup_gen (f : nat → string) (vs : list Value) i :
  Inj (=) (=) f →
  (list_to_map (imap (fun i v => (f i, v)) vs) : Obj) !! f i = vs !! i.
Proof.
  intros Hinj. revert f Hinj i.
  induction vs as [|v vs IH]; intros f Hinj i; [by destruct i|].
  rewrite imap_cons, list_to_map_cons.
  destruct i as [|i].
  - by rewrite lookup_insert_eq.
  - rewrite lookup_insert_ne by (intros Heq; by apply Hinj in Heq).
    apply (IH (f ∘ S)). intros x y Hxy. apply Hinj in Hxy. by injection Hxy.
Qed.

Lemma indexed_lookup (vs : list Value) i :
  indexed vs !! pretty i = vs !! i.
Proof. apply (indexed_lookup_gen pretty), _. Qed.

(** X10: when the body is an array, allData holds its elements under their
    decimal indices: element [i] is found under the key that prints [i],
    unless the headers or the request object itself have a property of that
    name, which then takes its place. *)
Theorem allData_array_body (req : Request) (elems : list Value) (i : nat)
    (v : Value) :
  body req = VArr elems →
  elems !! i = Some v →
  allData req !! pretty i =
    match own req !! pretty i with
    | Some shadow => Some shadow
    | None =>
        match own_enumerable (headers req) !! pretty i with
        | Some shadow => Some shadow
        | None => Some v
        end
    end.
Proof.
  intros Hbody Hi. unfold allData, spread. cbn [own_enumerable].
  rewrite !lookup_union, Hbody. cbn [own_enumerable].
  rewrite indexed_lookup, Hi.
  by destruct (own req !! pretty i),
    (own_enumerable (headers req) !! pretty i),
    (own_enumerable (query req) !! pretty i),
    (own_enumerable (params req) !! pretty i).
Qed.

Lemma allData_array_body_witness :
  allData {| params := VObj {[ "0" := VStr "from-params" ]};
             query := VObj ∅;
             body := VArr [VStr "first"; VStr "second"];
             headers := VObj {[ "host" := VStr "localhost" ]};
             own := {[ "url" := VStr "/items" ]} |} !! "1"
    = Some (VStr "second").
Proof.
  pose proof (allData_array_body
           {| params := VObj {[ "0" := VStr "from-params" ]};
              query := VObj ∅;
              body := VArr [VStr "first"; VStr "second"];
              headers := VObj {[ "host" := VStr "localhost" ]};
              own := {[ "url" := VStr "/items" ]} |}
           [VStr "first"; VStr "second"] 1 (VStr "second")
           eq_refl eq_refl) as Hlookup.
  vm_compute in Hlookup. vm_compute. exact Hlookup.
Defined.

(** ** Start-up of the server *)

(** X11: start-up completes exactly when serverConfig resolves, DB_DIALECT is
    set to a non-empty string, the database connection succeeds and listen
    does not throw.  The HTTP server is created and listen is called exactly
    when the first three hold: start-up then has configured the application,
    connected, created the server for that application and called listen, in
    this order, on the value of PORT (as the string it is) or on 3000 when
    PORT is unset or empty; and when listen throws, start-up fails with what
    it threw, after the server was created. *)
Theorem server_starts_iff (App : Type) (env : Server.Env)
    (serverConfig : Exn + App) (mongooseConnect : Exn + unit)
    (listen : Value → Exn + unit) :
  let run := Server.main env serverConfig mongooseConnect listen in
  (snd run = inr tt ↔
     (∃ app, serverConfig = inr app) ∧
     Server.env_truthy env "DB_DIALECT" = true ∧
     mongooseConnect = inr tt ∧
     listen (Server.port env) = inr tt) ∧
  (List.filter Server.serves (fst run) ≠ [] ↔
     (∃ app, serverConfig = inr app) ∧
     Server.env_truthy env "DB_DIALECT" = true ∧
     mongooseConnect = inr tt) ∧
  (∀ app, serverConfig = inr app →
     Server.env_truthy env "DB_DIALECT" = true →
     mongooseConnect = inr tt →
     fst run =
       [Server.ServerConfig; Server.MongooseConnect; Server.CreateServer app;
        Server.Listen (Server.port env)
          ("Server is listening on port " +:+ Server.port_text (Server.port env))]
     ∧ ∀ e, listen (Server.port env) = inl e →
         snd run = inl (Server.Rejection e)) ∧
  (Server.port env = VNum 3000 ↔
     env !! "PORT" = None ∨ env !! "PORT" = Some "") ∧
  (∀ value, env !! "PORT" = Some value → value ≠ "" →
     Server.port env = VStr value).
Proof.
  intros run. subst run.
  assert ((Server.port env = VNum 3000 ↔
             env !! "PORT" = None ∨ env !! "PORT" = Some "") ∧
          (∀ value, env !! "PORT" = Some value → value ≠ "" →
             Server.port env = VStr value)) as Hport.
  { unfold Server.port.
    destruct (env !! "PORT") as [value|] eqn:Hport.
    - destruct (String.eqb_spec value "") as [->|Hne].
      + split; [by split; [right|]|]. by intros ? [= <-] ?.
      + split.
        * split; [done|]. intros [?|[= ?]]; done.
        * by intros ? [= <-] _.
    - split; [by split; [left|]|]. done. }
  split; [|split; [|split; [|exact Hport]]]; unfold Server.main.
  - destruct serverConfig as [e|app]; cbn.
    { split; [done|]. by intros [[? ?] _]. }
    destruct (Server.env_truthy env "DB_DIALECT"); cbn.
    2: { split; [done|]. by intros (_ & ? & _). }
    destruct mongooseConnect as [err|[]]; cbn.
    { split; [done|]. by intros (_ & _ & ? & _). }
    destruct (listen (Server.port env)) as [e|[]].
    + split; [done|]. by intros (_ & _ & _ & ?).
    + split; [|done]. intros _. split; [by eexists|done].
  - destruct serverConfig as [e|app]; cbn.
    { split; [done|]. by intros [[? ?] _]. }
    destruct (Server.env_truthy env "DB_DIALECT"); cbn.
    2: { split; [done|]. by intros (_ & ? & _). }
    destruct mongooseConnect as [err|[]]; cbn.
    { split; [done|]. by intros (_ & _ & ?). }
    split; [|done]. intros _. split; [by eexists|done].
  - intros app -> -> ->. cbn. split; [done|]. by intros e ->.
Qed.

Lemma server_starts_iff_witness :
  fst (Server.main (<["DB_DIALECT" := "mongodb"]> {[ "PORT" := "70000" ]})
         (inr "app" : Exn + string) (inr tt)
         (fun _ => inl (Thrown (VStr "ERR_SOCKET_BAD_PORT")))) =
    [Server.ServerConfig; Server.MongooseConnect; Server.CreateServer "app";
     Server.Listen (VStr "70000") "Server is listening on port 70000"] ∧
  snd (Server.main (<["DB_DIALECT" := "mongodb"]> {[ "PORT" := "70000" ]})
         (inr "app" : Exn + string) (inr tt)
         (fun _ => inl (Thrown (VStr "ERR_SOCKET_BAD_PORT")))) =
    inl (Server.Rejection (Thrown (VStr "ERR_SOCKET_BAD_PORT"))).
Proof.
  destruct (server_starts_iff string
              (<["DB_DIALECT" := "mongodb"]> {[ "PORT" := "70000" ]})
              (inr "app") (inr tt)
              (fun _ => inl (Thrown (VStr "ERR_SOCKET_BAD_PORT"))))
    as (_ & _ & Hrun & _ & Hport).
  destruct (Hrun "app" eq_refl eq_refl eq_refl) as [Htrace Hthrow].
  split.
  - rewrite Htrace, (Hport "70000"); [reflexivity|reflexivity|discriminate].
  - apply Hthrow. reflexivity.
Defined.

(** X12: start-up contacts the database only after serverConfig has resolved
    and only when DB_DIALECT is set to a non-empty string; without it
    start-up fails with the Error 'DB_DIALECT not found in .env file' although
    the application has been configured.  When the connection fails, the
    error is logged with console.error and start-up fails with that same
    error. *)
Theorem server_database_contact (App : Type) (env : Server.Env)
    (serverConfig : Exn + App) (mongooseConnect : Exn + unit)
    (listen : Value → Exn + unit) :
  let run := Server.main env serverConfig mongooseConnect listen in
  (List.filter Server.connects (fst run) ≠ [] ↔
     (∃ app, serverConfig = inr app) ∧
     Server.env_truthy env "DB_DIALECT" = true) ∧
  (∀ app, serverConfig = inr app →
     Server.env_truthy env "DB_DIALECT" = false →
     run = ([Server.ServerConfig],
            inl (Server.Error "DB_DIALECT not found in .env file"))) ∧
  (∀ app err, serverConfig = inr app →
     Server.env_truthy env "DB_DIALECT" = true →
     mongooseConnect = inl err →
     run = ([Server.ServerConfig; Server.MongooseConnect;
             Server.ConsoleError "Unable to connect to the database:" err],
            inl (Server.Rejection err))).
Proof.
  intros run. subst run. unfold Server.main.
  split; [|split].
  - destruct serverConfig as [e|app]; cbn.
    { split; [done|]. by intros [[? ?] _]. }
    destruct (Server.env_truthy env "DB_DIALECT"); cbn.
    + destruct mongooseConnect as [err|u]; cbn;
        (split; [intros _; split; [by eexists|done]|done]).
    + split; [done|]. by intros [_ ?].
  - intros app -> ->. reflexivity.
  - intros app err -> -> ->. reflexivity.
Qed.

Lemma server_database_contact_witness :
  Server.env_truthy ({[ "DB_DIALECT" := "" ]} : Server.Env) "DB_DIALECT"
    = false ∧
  Server.main {[ "DB_DIALECT" := "" ]} (inr "app" : Exn + string) (inr tt)
    (fun _ => inr tt) =
    ([Server.ServerConfig],
     inl (Server.Error "DB_DIALECT not found in .env file")).
Proof.
  assert (Server.env_truthy ({[ "DB_DIALECT" := "" ]} : Server.Env)
            "DB_DIALECT" = false) as Hempty by reflexivity.
  split; [exact Hempty|].
  destruct (server_database_contact string {[ "DB_DIALECT" := "" ]}
              (inr "app") (inr tt) (fun _ => inr tt)) as (_ & Hmissing & _).
  exact (Hmissing "app" eq_refl Hempty).
Defined.

(** ** The order of rules of different sections *)

(** X13: the result of joiValidator depends on the rule list only through
    the PARAMS rules, the QUERY rules and the BODY rules, each taken in their
    own order: interleaving the rules of different sections differently
    changes neither the verdict nor the messages under any key. *)
Theorem joiValidator_section_order
    (params query body : Value) (rules rules' : list Payload) :
  rules_of PARAMS rules = rules_of PARAMS rules' →
  rules_of QUERY rules = rules_of QUERY rules' →
  rules_of BODY rules = rules_of BODY rules' →
  outcome (joiValidator params query body
             {| RequestBuilder.payload := rules |}) =
  outcome (joiValidator params query body
             {| RequestBuilder.payload := rules' |}).
Proof.
  intros Hp Hq Hb. rewrite !joiValidator_outcome. f_equal.
  unfold joiValidator_spec, library_errors, library_messages.
  cbn [RequestBuilder.payload]. by rewrite Hp, Hq, Hb.
Qed.

Lemma joiValidator_section_order_witness :
  outcome (joiValidator (params Example.bad_request)
             (query Example.bad_request) (body Example.bad_request)
             {| RequestBuilder.payload :=
                  rev (RequestBuilder.payload Example.user_rules) |}) =
  outcome (joiValidator (params Example.bad_request)
             (query Example.bad_request) (body Example.bad_request)
             {| RequestBuilder.payload :=
                  RequestBuilder.payload Example.user_rules |}).
Proof.
  apply (joiValidator_section_order (params Example.bad_request)
           (query Example.bad_request) (body Example.bad_request)
           (rev (RequestBuilder.payload Example.user_rules))
           (RequestBuilder.payload Example.user_rules));
    reflexivity.
Defined.
